(** * moonraker-obico: the webcam streaming supervisor

    A shallow embedding of [moonraker_obico/webcam_stream.py]: the bitrate
    table, the H.264 encoder probe, the webcam resolution probe with its
    retry decorator, the launch of the ffmpeg process, the stderr monitor
    and the teardown of [WebcamStreamer].

    Python integers are [Z]; [str] and [bytes] values are [string]; the
    [linked_printer] dict is a [gmap]; child processes, the webcam and the
    host are an explicit environment [Env]; the mutable [WebcamStreamer]
    object, the module global [FFMPEG] and the observable effects (log
    records, Sentry messages, spawned processes and threads, writes of the
    shutdown flag) are threaded through a state and exception monad whose
    outcomes are: returns, raises, blocks for ever.

    The monitor thread shares the [WebcamStreamer] object with the main
    thread.  It spends its time blocked in [readline()]; each read of the
    model carries the calls the main thread makes while the read is
    pending, and those calls are taken to be atomic for the monitor. *)

From Stdlib Require Import ZArith QArith String Ascii List Lia Bool DecimalString.
From stdpp Require Import base option list strings gmap.

Local Open Scope string_scope.
Local Open Scope list_scope.
Local Open Scope stdpp_scope.
Local Open Scope Z_scope.

(** ** Bitrate table *)

(** [bitrate_for_dim(img_w, img_h)], lines 29-38. *)
Definition bitrate_for_dim (img_w img_h : Z) : Z :=
  let dim := img_w * img_h in
  if dim <=? 480 * 270 then 400 * 1000
  else if dim <=? 960 * 540 then 1300 * 1000
  else if dim <=? 1280 * 720 then 2000 * 1000
  else 3000 * 1000.

(** ** Python values stored in the [linked_printer] dict *)

Inductive pyval : Type :=
  | PyNone
  | PyBool (b : bool)
  | PyInt (z : Z)
  | PyStr (s : string).

(** Python truth value of an object. *)
Definition truthy (v : pyval) : bool :=
  match v with
  | PyNone => false
  | PyBool b => b
  | PyInt z => negb (z =? 0)
  | PyStr s => negb (String.eqb s "")
  end.

(** [d.get(k)]: the value under [k], [None] when the key is absent. *)
Definition dict_get (d : gmap string pyval) (k : string) : pyval :=
  default PyNone (d !! k).

(** [int(x / 4)] on a Python [int]: true division yields a float and [int]
    truncates it toward zero.  Dividing by a power of two is exact on the
    integers below 2^53, so for the bitrates of the table the result is the
    truncated quotient. *)
Definition int_truediv (x y : Z) : Z := Z.quot x y.

(** Lines 144-148 of [ffmpeg_from_mjpeg]: frame rate and bitrate from the
    image size and the [is_pro] entry of the linked printer. *)
Definition stream_policy (img_w img_h : Z) (linked_printer : gmap string pyval)
  : Z * Z :=
  let bitrate := bitrate_for_dim img_w img_h in
  let fps := 25 in
  if negb (truthy (dict_get linked_printer "is_pro"))
  then (5, int_truediv bitrate 4)
  else (fps, bitrate).

(** ** Strings and paths *)

(** ['{}'.format(n)] on an [int]: its decimal numeral. *)
Definition string_of_Z (z : Z) : string := NilZero.string_of_int (Z.to_int z).

(** The one-character string holding a line feed. *)
Definition nl : string := String "010" "".

(** [s.split(sep)] for a one-character separator: empty fields are kept and
    the empty string splits into one empty field. *)
Fixpoint split_on (sep : ascii) (s : string) : list string :=
  match s with
  | EmptyString => [""]
  | String c s' =>
      if Ascii.eqb c sep then "" :: split_on sep s'
      else match split_on sep s' with
           | w :: ws => String c w :: ws
           | [] => [String c ""]
           end
  end.

Fixpoint ends_with_slash (s : string) : bool :=
  match s with
  | EmptyString => false
  | String c EmptyString => Ascii.eqb c "/"
  | String _ s' => ends_with_slash s'
  end.

Definition starts_with_slash (s : string) : bool :=
  match s with
  | String c _ => Ascii.eqb c "/"
  | EmptyString => false
  end.

(** [os.path.join(a, b)] on a POSIX host. *)
Definition path_join2 (a b : string) : string :=
  if starts_with_slash b then b
  else if String.eqb a "" || ends_with_slash a then a +:+ b
  else a +:+ "/" +:+ b.

Definition path_join (a : string) (parts : list string) : string :=
  fold_left path_join2 parts a.

(** ** Exceptions, processes and the environment *)

(** The exceptions that occur; each is a subclass of Python's [Exception]. *)
Inductive exn : Type :=
  | Exception (msg : string)      (* [raise Exception(msg)] in this file *)
  | TimeoutExpired                (* [psutil.TimeoutExpired] *)
  | AttributeError                (* attribute access on [None] *)
  | OSError                       (* [Popen] could not start the program *)
  | ExternalError (msg : string). (* raised inside a collaborator *)

Definition is_TimeoutExpired (e : exn) : bool :=
  match e with TimeoutExpired => true | _ => false end.

(** What a child process does, as far as this module observes it. *)
Record behaviour : Type := {
  exit_after : option Z;        (* seconds from launch to exit; [None]: it never exits *)
  returncode : Z;               (* exit status, when it exits *)
  stdout_data : string;         (* what it writes to stdout *)
  stderr_data : string;         (* what it writes to stderr *)
  terminate_error : option exn  (* [terminate()] raises this *)
}.

(** A [psutil.Popen] object. *)
Record process : Type := {
  pid : nat;
  cmdline : list string;
  beh : behaviour
}.

(** Result of one call of [capture_jpeg]. *)
Inductive capture_result : Type :=
  | CaptureRaises (e : exn)
  | CaptureReturns (jpg : option string).

(** The collaborators and the host: everything the module reads but does
    not define. *)
Record Env : Type := {
  module_dir : string;     (* [os.path.dirname(os.path.abspath(__file__))] *)
  JANUS_SERVER : string;   (* [janus.JANUS_SERVER] *)
  pi_version : pyval;      (* result of [utils.pi_version()] *)
  stream_url : pyval;      (* [config.webcam.stream_url] *)
  linked_printer : gmap string pyval;   (* [app_model.linked_printer] *)
  (* the [n]-th process started, by command line; [None]: [Popen] raises *)
  spawn : nat -> list string -> option behaviour;
  (* the [n]-th call of [webcam_capture.capture_jpeg] *)
  capture_jpeg : nat -> capture_result;
  (* [utils.get_image_info]; [None]: it raises *)
  get_image_info : string -> option (string * Z * Z);
  utf8_decode : string -> option string;   (* [bytes.decode('utf-8')] *)
  py_int : string -> option Z;             (* [int(str)]; [None]: ValueError *)
  bytes_repr : string -> string            (* ['{}'.format(b)] on bytes *)
}.

(** ** State, effects and the monad *)

Inductive loglevel : Type := LvlDebug | LvlInfo | LvlWarning | LvlError.

Inductive thread : Type :=
  | WatchProcessCpu (watched : process) (max interval : Z)
  | MonitorFfmpegProcess.

(** Observable effects, recorded in the order they happen. *)
Inductive event : Type :=
  | EvSetShuttingDown (b : bool)     (* [self.shutting_down = b] *)
  | EvLog (lvl : loglevel) (msg : string)
  | EvPopen (p : process)
  | EvNice (p : process) (value : Z)
  | EvTerminate (p : process)
  | EvThreadStart (t : thread)
  | EvSleep
  (* a record of the decorator of [get_webcam_resolution] on the logger
     'backoff', written at try number [tries], which raised [e]: at level
     INFO "Backing off ..." before a retry, at level ERROR "Giving up ...
     after <tries> tries" *)
  | EvBackoffLog (lvl : loglevel) (tries : nat) (e : exn)
  | EvCaptureException (e : exn)
  | EvCaptureMessage (msg : string)
  | EvPostPrinterEvent (title text event_class info_url : string).

(** The [WebcamStreamer] object ([ffmpeg_proc], [shutting_down]), the module
    global [FFMPEG], and the bookkeeping of the world around them. *)
Record state : Type := {
  ffmpeg_proc : option process;
  shutting_down : bool;
  FFMPEG : string;
  spawned : nat;       (* processes started so far *)
  captures : nat;      (* calls of [capture_jpeg] so far *)
  events : list event
}.

Inductive outcome (A : Type) : Type :=
  | Ret (a : A)        (* returns [a] *)
  | Raise (e : exn)    (* raises [e] *)
  | Hang.              (* blocks forever *)
Arguments Ret {A} a.
Arguments Raise {A} e.
Arguments Hang {A}.

Definition M (A : Type) : Type := state -> outcome A * state.

Definition ret {A} (a : A) : M A := fun s => (Ret a, s).
Definition raise {A} (e : exn) : M A := fun s => (Raise e, s).
Definition hang {A} : M A := fun s => (Hang, s).

Definition bind {A B} (m : M A) (k : A -> M B) : M B :=
  fun s =>
    match m s with
    | (Ret a, s') => k a s'
    | (Raise e, s') => (Raise e, s')
    | (Hang, s') => (Hang, s')
    end.

Notation "'do' x <- m >> k" := (bind m (fun x => k))
  (at level 10, x name, m at level 100, k at level 200).
Notation "'run' m >> k" := (bind m (fun _ => k))
  (at level 10, m at level 100, k at level 200).

(** [try: body / except <class>: handler], for the classes selected by [sel]. *)
Definition try_except {A} (body : M A) (sel : exn -> bool) (handler : exn -> M A)
  : M A :=
  fun s =>
    match body s with
    | (Raise e, s') => if sel e then handler e s' else (Raise e, s')
    | r => r
    end.

(** Every exception of [exn] is an [Exception]. *)
Definition any_Exception (e : exn) : bool := true.

Definition get {A} (f : state -> A) : M A := fun s => (Ret (f s), s).

Definition emit (e : event) : M unit :=
  fun s => (Ret tt,
            {| ffmpeg_proc := ffmpeg_proc s; shutting_down := shutting_down s;
               FFMPEG := FFMPEG s; spawned := spawned s; captures := captures s;
               events := events s ++ [e] |}).

Definition set_ffmpeg_proc (p : option process) : M unit :=
  fun s => (Ret tt,
            {| ffmpeg_proc := p; shutting_down := shutting_down s;
               FFMPEG := FFMPEG s; spawned := spawned s; captures := captures s;
               events := events s |}).

(** [self.shutting_down = b]: the write is visible to the other threads,
    so it is recorded among the events. *)
Definition set_shutting_down (b : bool) : M unit :=
  fun s => (Ret tt,
            {| ffmpeg_proc := ffmpeg_proc s; shutting_down := b;
               FFMPEG := FFMPEG s; spawned := spawned s; captures := captures s;
               events := events s ++ [EvSetShuttingDown b] |}).

Definition set_FFMPEG (path : string) : M unit :=
  fun s => (Ret tt,
            {| ffmpeg_proc := ffmpeg_proc s; shutting_down := shutting_down s;
               FFMPEG := path; spawned := spawned s; captures := captures s;
               events := events s |}).

Definition log (lvl : loglevel) (msg : string) : M unit := emit (EvLog lvl msg).

(** [psutil.Popen(cmd, ...)]: the next process of the environment. *)
Definition Popen (E : Env) (cmd : list string) : M process :=
  fun s =>
    match spawn E (spawned s) cmd with
    | None => (Raise OSError, s)
    | Some b =>
        let p := {| pid := spawned s; cmdline := cmd; beh := b |} in
        (Ret p,
         {| ffmpeg_proc := ffmpeg_proc s; shutting_down := shutting_down s;
            FFMPEG := FFMPEG s; spawned := S (spawned s); captures := captures s;
            events := events s ++ [EvPopen p] |})
    end.

(** Is the process still running [t] seconds after its launch? *)
Definition alive_after (p : process) (t : Z) : bool :=
  match exit_after (beh p) with
  | Some d => t <? d
  | None => true
  end.

(** [p.wait(timeout=t)]: the exit status once the process has exited;
    [TimeoutExpired] when it is still running after [t] seconds; without a
    timeout the call lasts as long as the process does. *)
Definition wait (p : process) (timeout : option Z) : M Z :=
  match timeout with
  | Some t => if alive_after p t then raise TimeoutExpired
              else ret (returncode (beh p))
  | None => match exit_after (beh p) with
            | Some _ => ret (returncode (beh p))
            | None => hang
            end
  end.

(** [p.terminate()]. *)
Definition terminate (p : process) : M unit :=
  run emit (EvTerminate p) >>
  match terminate_error (beh p) with
  | Some e => raise e
  | None => ret tt
  end.

(** [self.ffmpeg_proc.<method>(...)]: the attribute is read from the object
    at the call; on [None] the access raises [AttributeError]. *)
Definition with_ffmpeg_proc {A} (f : process -> M A) : M A :=
  do h <- get ffmpeg_proc >>
  match h with
  | Some p => f p
  | None => raise AttributeError
  end.

(** [p.communicate()] once the process has exited: the data of the streams
    that were opened as pipes, [None] for the others. *)
Definition communicate (p : process) (stdout_pipe stderr_pipe : bool)
  : M (option string * option string) :=
  ret (if stdout_pipe then Some (stdout_data (beh p)) else None,
       if stderr_pipe then Some (stderr_data (beh p)) else None).

(** ['{}'.format(x)] on the result of [communicate]. *)
Definition format_bytes (E : Env) (x : option string) : string :=
  match x with
  | None => "None"
  | Some b => bytes_repr E b
  end.

(** ['{}'.format(v)] on a value of the configuration. *)
Definition py_str (v : pyval) : string :=
  match v with
  | PyNone => "None"
  | PyBool true => "True"
  | PyBool false => "False"
  | PyInt z => string_of_Z z
  | PyStr s => s
  end.

(** ** The module's functions *)

(** [cpu_watch_dog(watched_process, max, interval, server_conn)], lines 40-60:
    it starts the daemon thread that runs [watch_process_cpu]. *)
Definition cpu_watch_dog (watched_process : process) (max interval : Z) : M unit :=
  emit (EvThreadStart (WatchProcessCpu watched_process max interval)).

(** [set_ffmpeg_if_needed()], lines 63-77. *)
Definition set_ffmpeg_if_needed (E : Env) : M unit :=
  do cat_proc <- Popen E ["cat"; "/etc/debian_version"] >>
  do rc <- wait cat_proc (Some 5) >>
  if negb (rc =? 0) then ret tt
  else
    do out <- communicate cat_proc true false >>
    match out.1 ≫= utf8_decode E with
    | None => ret tt
    | Some text =>
        match py_int E (hd "" (split_on "." text)) with
        | None => ret tt
        | Some debian_version =>
            if debian_version >=? 11
            then set_FFMPEG (path_join (module_dir E)
                               ["bin"; "rpi_os.11"; "32bits"; "ffmpeg"])
            else ret tt
        end
    end.

(** [WebcamStreamer.__init__], lines 82-89. *)
Definition WebcamStreamer_init : M unit :=
  run set_ffmpeg_proc None >>
  set_shutting_down false.

(** The command line of one trial encode, line 124. *)
Definition trial_cmd (ffmpeg test_video encoder : string) : string :=
  ffmpeg +:+ " -re -i " +:+ test_video +:+ " -pix_fmt yuv420p -vcodec " +:+ encoder
  +:+ " -an -f rtp rtp://localhost:8014?pkt_size=1300".

Definition no_encoder_msg : string :=
  "No ffmpeg found, or ffmpeg does NOT support h264_omx/h264_v4l2m2m encoding.".

(** The [for encoder in [...]] loop of [h264_encoder], lines 123-129. *)
Fixpoint h264_encoder_loop (E : Env) (test_video : string) (encoders : list string)
  : M string :=
  match encoders with
  | [] => raise (Exception no_encoder_msg)
  | encoder :: rest =>
      do ffmpeg <- get FFMPEG >>
      let ffmpeg_cmd := trial_cmd ffmpeg test_video encoder in
      run log LvlDebug ("Popen: " +:+ ffmpeg_cmd) >>
      do ffmpeg_test_proc <- Popen E (split_on " " ffmpeg_cmd) >>
      do rc <- wait ffmpeg_test_proc None >>
      if rc =? 0 then ret encoder
      else h264_encoder_loop E test_video rest
  end.

Definition test_video (E : Env) : string :=
  path_join (module_dir E) ["bin"; "test-video.mp4"].

Definition encoder_candidates : list string := ["h264_omx"; "h264_v4l2m2m"].

(** [h264_encoder()], lines 120-129. *)
Definition h264_encoder (E : Env) : M string :=
  h264_encoder_loop E (test_video E) encoder_candidates.

(** [capture_jpeg(webcam_config, force_stream_url=True)]. *)
Definition call_capture_jpeg (E : Env) : M (option string) :=
  fun s =>
    let s' := {| ffmpeg_proc := ffmpeg_proc s; shutting_down := shutting_down s;
                 FFMPEG := FFMPEG s; spawned := spawned s;
                 captures := S (captures s); events := events s |} in
    match capture_jpeg E (captures s) with
    | CaptureRaises e => (Raise e, s')
    | CaptureReturns jpg => (Ret jpg, s')
    end.

Definition not_jpeg_msg : string := "Not a valid jpeg source. Quiting ffmpeg.".

(** The undecorated body of [get_webcam_resolution], lines 114-118. *)
Definition get_webcam_resolution_body (E : Env) : M (string * Z * Z) :=
  do jpg <- call_capture_jpeg E >>
  match jpg with
  | None => raise (Exception not_jpeg_msg)
  | Some data =>
      if String.eqb data "" then raise (Exception not_jpeg_msg)
      else match get_image_info E data with
           | Some info => ret info
           | None => raise (ExternalError "get_image_info")
           end
  end.

(** [backoff.on_exception(backoff.expo, Exception, max_tries=n)] for
    [n >= 1]: the target is called; when it raises an [Exception] and fewer
    than [n] calls have been made, the decorator logs a "Backing off"
    record at level INFO, sleeps and calls the target again; when the
    [n]-th call raises, the decorator logs a "Giving up" record at level
    ERROR and the exception is raised to the caller.  [tries] is the number
    of the call being made, [retries] the number of calls still allowed
    after it. *)
Fixpoint on_exception_loop {A} (tries retries : nat) (target : M A) {struct retries}
  : M A :=
  try_except target any_Exception
    (fun e => match retries with
              | O =>
                  run emit (EvBackoffLog LvlError tries e) >>
                  raise e
              | S k =>
                  run emit (EvBackoffLog LvlInfo tries e) >>
                  run emit EvSleep >>
                  on_exception_loop (S tries) k target
              end).

Definition on_exception {A} (max_tries : nat) (target : M A) : M A :=
  on_exception_loop 1 (Nat.pred max_tries) target.

(** [get_webcam_resolution(webcam_config)], lines 112-118. *)
Definition get_webcam_resolution (E : Env) : M (string * Z * Z) :=
  on_exception 20 (get_webcam_resolution_body E).

(** [WebcamStreamer.start_ffmpeg(ffmpeg_args)] up to the start of the two
    daemon threads, lines 152-169 and 187-189. *)
Definition ffmpeg_quit_msg (returncode : Z) : string :=
  "ffmpeg quit! This should not happen. Exit code: " +:+ string_of_Z returncode.

(** The text logged when the process exits during start-up, line 163. *)
Definition startup_msg (E : Env) (stdoutdata stderrdata : option string) : string :=
  "STDOUT:" +:+ nl +:+ format_bytes E stdoutdata +:+ nl
  +:+ "STDERR:" +:+ nl +:+ format_bytes E stderrdata +:+ nl.

(** The command line of the streaming process, line 153. *)
Definition stream_cmd (E : Env) (ffmpeg ffmpeg_args : string) : string :=
  ffmpeg +:+ " -loglevel error " +:+ ffmpeg_args
  +:+ " -bsf dump_extra -an -f rtp rtp://" +:+ JANUS_SERVER E
  +:+ ":8004?pkt_size=1300".

Definition start_ffmpeg (E : Env) (ffmpeg_args : string) : M unit :=
  do ffmpeg <- get FFMPEG >>
  let ffmpeg_cmd := stream_cmd E ffmpeg ffmpeg_args in
  run log LvlDebug ("Popen: " +:+ ffmpeg_cmd) >>
  do p <- Popen E (split_on " " ffmpeg_cmd) >>
  run set_ffmpeg_proc (Some p) >>
  run with_ffmpeg_proc (fun p => emit (EvNice p 10)) >>
  run try_except
    (do returncode <- with_ffmpeg_proc (fun p => wait p (Some 10)) >>
     do out <- with_ffmpeg_proc (fun p => communicate p false true) >>
     let msg := startup_msg E out.1 out.2 in
     run log LvlError msg >>
     raise (Exception (ffmpeg_quit_msg returncode)))
    is_TimeoutExpired (fun _ => ret tt) >>
  run with_ffmpeg_proc (fun p => cpu_watch_dog p 80 20) >>
  emit (EvThreadStart MonitorFfmpegProcess).

(** [WebcamStreamer.ffmpeg_from_mjpeg], lines 110-150. *)
Definition ffmpeg_from_mjpeg (E : Env) : M unit :=
  run set_ffmpeg_if_needed E >>
  do encoder <- h264_encoder E >>
  do info <- get_webcam_resolution E >>
  let '(_, img_w, img_h) := info in
  if negb (truthy (stream_url E))
  then raise (Exception "stream_url not configured. Unable to stream the webcam.")
  else
    let '(fps, bitrate) := stream_policy img_w img_h (linked_printer E) in
    start_ffmpeg E
      ("-re -i " +:+ py_str (stream_url E) +:+ " -filter:v fps=" +:+ string_of_Z fps
       +:+ " -b:v " +:+ string_of_Z bitrate +:+ " -pix_fmt yuv420p -s "
       +:+ string_of_Z img_w +:+ "x" +:+ string_of_Z img_h
       +:+ " -flags:v +global_header -vcodec " +:+ encoder).

(** [WebcamStreamer.video_pipeline], lines 92-107. *)
Definition video_pipeline (E : Env) : M unit :=
  if negb (truthy (pi_version E))
  then log LvlWarning "Not running on a Pi. Quiting video_pipeline."
  else
    try_except (ffmpeg_from_mjpeg E) any_Exception
      (fun e =>
         run emit (EvCaptureException e) >>
         emit (EvPostPrinterEvent
                 "moonraker-obico: Webcam Streaming Failed"
                 "The webcam streaming failed to start. Obico is now streaming at 0.1 FPS."
                 "WARNING"
                 "https://www.obico.io/docs/user-guides/webcam-stream-stuck-at-1-10-fps/")).

(** [deque(maxlen=n).append(x)]: a full deque drops its oldest element. *)
Definition deque_append (maxlen : nat) (d : list string) (x : string) : list string :=
  if (maxlen <=? length d)%nat then drop 1 d ++ [x] else d ++ [x].

(** The text logged at an unexpected exit, line 180. *)
Definition stderr_msg (ring_buffer : list string) : string :=
  "STDERR:" +:+ nl +:+ String.concat nl ring_buffer +:+ nl.

(** [WebcamStreamer.restore], lines 192-201. *)
Definition restore : M unit :=
  run set_shutting_down true >>
  do h <- get ffmpeg_proc >>
  run match h with
      | Some _ =>
          try_except (with_ffmpeg_proc terminate) any_Exception (fun _ => ret tt)
      | None => ret tt
      end >>
  set_ffmpeg_proc None.

(** ** The main thread and the monitor thread *)

(** What the main thread can call on a constructed streamer. *)
Inductive main_call : Type :=
  | CallSetFfmpegIfNeeded
  | CallVideoPipeline
  | CallFfmpegFromMjpeg
  | CallStartFfmpeg (ffmpeg_args : string)
  | CallRestore.

(** The state after the call, however it ends. *)
Definition exec (E : Env) (c : main_call) (s : state) : state :=
  match c with
  | CallSetFfmpegIfNeeded => (set_ffmpeg_if_needed E s).2
  | CallVideoPipeline => (video_pipeline E s).2
  | CallFfmpegFromMjpeg => (ffmpeg_from_mjpeg E s).2
  | CallStartFfmpeg ffmpeg_args => (start_ffmpeg E ffmpeg_args s).2
  | CallRestore => (restore s).2
  end.

(** Calls in order, each in the environment it meets. *)
Definition run_calls (cs : list (Env * main_call)) (s : state) : state :=
  fold_left (fun s ec => exec ec.1 ec.2 s) cs s.

(** One [readline()] of the monitor thread: the thread is blocked until a
    line arrives or the stream ends; [meanwhile] is what the main thread
    does during that time, and [line] is the value of
    [to_unicode(..., errors='replace')] on what is read, empty at the end of
    the stream. *)
Record read : Type := {
  meanwhile : list (Env * main_call);
  line : string
}.

(** A read during which the main thread does nothing. *)
Definition quiet (l : string) : read := {| meanwhile := []; line := l |}.

Definition main_thread (cs : list (Env * main_call)) : M unit :=
  fun s => (Ret tt, run_calls cs s).

(** One turn of the [while True] loop of [monitor_ffmpeg_process], lines
    174-185: [self.ffmpeg_proc.stderr] is evaluated, [readline()] blocks
    while the main thread goes on, and the line read is handled.  The
    result is [None] when the thread returns and the new ring buffer when
    the loop goes on. *)
Definition monitor_step (r : read) (ring_buffer : list string)
  : M (option (list string)) :=
  with_ffmpeg_proc (fun _ =>
    run main_thread (meanwhile r) >>
    let err := line r in
    if String.eqb err "" then
      do stop <- get shutting_down >>
      if stop then ret None
      else
        do returncode <- with_ffmpeg_proc (fun p => wait p None) >>
        run log LvlError (stderr_msg ring_buffer) >>
        run emit (EvCaptureMessage (ffmpeg_quit_msg returncode)) >>
        ret None
    else ret (Some (deque_append 50 ring_buffer err))).

(** The loop over the successive reads; when they run out the thread stays
    blocked in [readline]. *)
Fixpoint monitor_loop (reads : list read) (ring_buffer : list string) : M unit :=
  match reads with
  | [] => hang
  | r :: rest =>
      do next <- monitor_step r ring_buffer >>
      match next with
      | None => ret tt
      | Some ring_buffer' => monitor_loop rest ring_buffer'
      end
  end.

(** [monitor_ffmpeg_process()], lines 170-185: the ring buffer starts empty. *)
Definition monitor_ffmpeg_process (reads : list read) : M unit :=
  monitor_loop reads [].

(** The module just imported ([FFMPEG = 'ffmpeg']), nothing started yet. *)
Definition module_loaded : state :=
  {| ffmpeg_proc := None; shutting_down := false; FFMPEG := "ffmpeg";
     spawned := 0; captures := 0; events := [] |}.

(** A freshly constructed [WebcamStreamer]. *)
Definition initial_state : state := (WebcamStreamer_init module_loaded).2.

(** ** The CPU watchdog thread *)

(** What [cpu_percent(interval=None)] gives: a percentage, or an exception
    of psutil. *)
Inductive cpu_reading : Type :=
  | CpuPercent (cpu_pct : Q)
  | CpuRaises (e : exn).

(** What one turn of the watchdog observes of the watched process. *)
Record cpu_sample : Type := {
  is_running : bool;        (* [watched_process.is_running()] *)
  reading : cpu_reading     (* [watched_process.cpu_percent(interval=None)] *)
}.

(** The event posted to the server, lines 49-54. *)
Definition cpu_warning : event :=
  EvPostPrinterEvent
    "moonraker-obico: Webcam Streaming Using Excessive CPU"
    "The webcam streaming uses excessive CPU. This may negatively impact your print quality, or cause webcam streaming issues."
    "WARNING"
    "https://obico.io/docs/user-guides/webcam-streaming-resolution-framerate-klipper/".

(** [cpu_pct > max]. *)
Definition exceeds (max : Z) (cpu_pct : Q) : bool :=
  negb (Qle_bool cpu_pct (inject_Z max)).

(** [watch_process_cpu(watched_process, max, interval, server_conn)], lines
    42-56, over the successive observations of the process; when they run
    out the thread is still polling. *)
Fixpoint watch_process_cpu (samples : list cpu_sample) (max interval : Z) : M unit :=
  match samples with
  | [] => hang
  | smp :: rest =>
      if negb (is_running smp) then ret tt
      else
        match reading smp with
        | CpuRaises e => raise e
        | CpuPercent cpu_pct =>
            run (if exceeds max cpu_pct then emit cpu_warning else ret tt) >>
            run emit EvSleep >>
            watch_process_cpu rest max interval
        end
  end.

(** * Reading the model *)

(** What the statements below are written with: views of the event log,
    the outcome of a trial or of a capture seen from outside, sample
    environments. *)

(** The events recorded between state [s] and a later state [s']. *)
Definition new_events (s s' : state) : list event :=
  drop (length (events s)) (events s').

Definition popen_cmd (e : event) : option (list string) :=
  match e with
  | EvPopen p => Some (cmdline p)
  | _ => None
  end.

(** The command lines of the processes started, in order. *)
Definition popen_cmds (evs : list event) : list (list string) :=
  omap popen_cmd evs.

(** [s] with [evs] logged after its events, [n] more processes started and
    [c] more frames captured. *)
Definition advance (s : state) (evs : list event) (n c : nat) : state :=
  {| ffmpeg_proc := ffmpeg_proc s; shutting_down := shutting_down s;
     FFMPEG := FFMPEG s; spawned := (spawned s + n)%nat;
     captures := (captures s + c)%nat; events := events s ++ evs |}.

(** Arguments of the trial process of [encoder]. *)
Definition trial_args (ffmpeg tv encoder : string) : list string :=
  split_on " " (trial_cmd ffmpeg tv encoder).

Inductive trial_result : Type :=
  | TrialNotStarted       (* [Popen] raises *)
  | TrialHangs            (* the trial process never exits *)
  | TrialExits (rc : Z).  (* it exits with status [rc] *)

(** What the trial of [encoder] does when it is the [n]-th process started. *)
Definition trial_of (E : Env) (ffmpeg tv : string) (n : nat) (encoder : string)
  : trial_result :=
  match spawn E n (trial_args ffmpeg tv encoder) with
  | None => TrialNotStarted
  | Some b => match exit_after b with
              | None => TrialHangs
              | Some _ => TrialExits (returncode b)
              end
  end.

(** The trial process of [encoder] started in state [s]. *)
Definition trial_proc (ffmpeg tv : string) (n : nat) (encoder : string)
  (b : behaviour) : process :=
  {| pid := n; cmdline := trial_args ffmpeg tv encoder; beh := b |}.

Definition trial_events (s : state) (tv encoder : string) (b : behaviour)
  : list event :=
  [EvLog LvlDebug ("Popen: " +:+ trial_cmd (FFMPEG s) tv encoder);
   EvPopen (trial_proc (FFMPEG s) tv (spawned s) encoder b)].

(** Every encoder of [encoders] has a trial that exits with a non-zero
    status, the first trial being the [n]-th process started. *)
Definition all_fail (E : Env) (ffmpeg tv : string) (n : nat) (encoders : list string)
  : Prop :=
  forall (k : nat) (e : string),
    encoders !! k = Some e ->
    exists rc, trial_of E ffmpeg tv (n + k) e = TrialExits rc /\ rc <> 0.

(** A process that exits after [exits] seconds with status [rc]. *)
Definition sample_behaviour (exits : option Z) (rc : Z) : behaviour :=
  {| exit_after := exits; returncode := rc; stdout_data := "11.6";
     stderr_data := "boom"; terminate_error := None |}.

(** Is [word] one of the arguments of [cmd]? *)
Definition mentions (word : string) (cmd : list string) : bool :=
  bool_decide (word ∈ cmd).

(** A host on which every process exits after one second with status 1,
    except those whose command line has a word of [ok] (status 0) or of
    [stuck] (they never exit); the webcam answers from capture number
    [first_ok] on, counting from 0. *)
Definition sample_env (ok stuck : list string) (first_ok : nat) : Env :=
  {| module_dir := "/opt/obico/moonraker_obico";
     JANUS_SERVER := "127.0.0.1";
     pi_version := PyInt 4;
     stream_url := PyStr "http://127.0.0.1/webcam/?action=stream";
     linked_printer := {[ "is_pro" := PyBool false ]};
     spawn := fun _ cmd =>
       Some (if existsb (fun e => mentions e cmd) stuck then sample_behaviour None 0
             else if existsb (fun e => mentions e cmd) ok
                  then sample_behaviour (Some 1) 0
                  else sample_behaviour (Some 1) 1);
     capture_jpeg := fun n =>
       if (n <? first_ok)%nat then CaptureReturns None
       else CaptureReturns (Some "JPEG");
     get_image_info := fun _ => Some ("JPEG", 1640, 1232);
     utf8_decode := Some;
     py_int := fun _ => Some 11;
     bytes_repr := fun b => "b'" +:+ b +:+ "'" |}.

(** The image information obtained by the [n]-th capture, [None] when that
    attempt fails: the capture raises, returns nothing, or the image cannot
    be decoded. *)
Definition attempt (E : Env) (n : nat) : option (string * Z * Z) :=
  match capture_jpeg E n with
  | CaptureRaises _ => None
  | CaptureReturns None => None
  | CaptureReturns (Some data) =>
      if String.eqb data "" then None else get_image_info E data
  end.

(** A streaming process that runs for an hour, and a streamer supervising it. *)
Definition sample_proc : process :=
  {| pid := 0; cmdline := ["ffmpeg"]; beh := sample_behaviour (Some 3600) 1 |}.

Definition sample_streamer (stop : bool) : state :=
  {| ffmpeg_proc := Some sample_proc; shutting_down := stop; FFMPEG := "ffmpeg";
     spawned := 1; captures := 1; events := [] |}.

Definition sample_lines : list string := replicate 60 "frame dropped" ++ ["fatal"].

(** Does the streamer hold a process that is still running [t] seconds
    after its launch? *)
Definition running_handle (s : state) (t : Z) : bool :=
  match ffmpeg_proc s with
  | Some p => alive_after p t
  | None => false
  end.

Definition thread_started (e : event) : bool :=
  match e with
  | EvThreadStart _ => true
  | _ => false
  end.

Definition terminate_events (h : option process) : list event :=
  match h with
  | Some p => [EvTerminate p]
  | None => []
  end.

(** The computation leaves [shutting_down] as it found it. *)
Definition keeps_flag {A} (m : M A) : Prop :=
  forall s, shutting_down (m s).2 = shutting_down s.

(** What can happen to a constructed streamer: a call on the main thread,
    or a run of the monitor thread over the lines it reads. *)
Inductive activity : Type :=
  | OnMainThread (E : Env) (c : main_call)
  | MonitorThread (lines : list string).

Definition perform (a : activity) (s : state) : state :=
  match a with
  | OnMainThread E c => exec E c s
  | MonitorThread lines => (monitor_ffmpeg_process (map quiet lines) s).2
  end.

Definition is_restore (a : activity) : bool :=
  match a with
  | OnMainThread _ CallRestore => true
  | _ => false
  end.

(** A history of the streamer. *)
Definition history (acts : list activity) (s : state) : state :=
  fold_left (fun s a => perform a s) acts s.

(** The computation leaves the part [f] of the state as it found it. *)
Definition keeps {A B} (f : state -> B) (m : M A) : Prop :=
  forall s, f (m s).2 = f s.

(** The computation only adds events to the log, none of them in [P]. *)
Definition never {A} (P : event -> bool) (m : M A) : Prop :=
  forall s, exists evs, events (m s).2 = events s ++ evs /\ existsb P evs = false.

Definition is_terminate (e : event) : bool :=
  match e with
  | EvTerminate _ => true
  | _ => false
  end.

Definition is_popen (e : event) : bool :=
  match e with
  | EvPopen _ => true
  | _ => false
  end.

(** An error record in the log, or a message or exception sent to Sentry, or
    an event posted to the server. *)
Definition is_report (e : event) : bool :=
  match e with
  | EvLog LvlError _ | EvBackoffLog LvlError _ _ | EvCaptureMessage _
  | EvCaptureException _ | EvPostPrinterEvent _ _ _ _ => true
  | _ => false
  end.

(** No space character in [x]. *)
Definition no_space (x : string) : bool :=
  forallb (fun c => negb (Ascii.eqb c " ")) (list_ascii_of_string x).

(** The exception with which the [n]-th capture attempt fails, when it
    fails. *)
Definition attempt_error (E : Env) (n : nat) : exn :=
  match capture_jpeg E n with
  | CaptureRaises e => e
  | CaptureReturns None => Exception not_jpeg_msg
  | CaptureReturns (Some data) =>
      if String.eqb data "" then Exception not_jpeg_msg
      else ExternalError "get_image_info"
  end.

(** What the decorator of [get_webcam_resolution] logs and does after [n]
    failed tries in a row, the first of them being try number [tries] and
    capture number [c]: a "Backing off" record, then a sleep, for each. *)
Fixpoint backoff_events (E : Env) (tries c n : nat) : list event :=
  match n with
  | O => []
  | S n' =>
      [EvBackoffLog LvlInfo tries (attempt_error E c); EvSleep]
      ++ backoff_events E (S tries) (S c) n'
  end.

Definition is_sleep (e : event) : bool :=
  match e with
  | EvSleep => true
  | _ => false
  end.

(** The text [l] occurs in [text]. *)
Definition occurs_in (l text : string) : Prop :=
  exists pre post : string, text = pre +:+ l +:+ post.

(** A record of the retry decorator, at either level. *)
Definition is_backoff (e : event) : bool :=
  match e with
  | EvBackoffLog _ _ _ => true
  | _ => false
  end.

(** What the watchdog does on a sample of a running process. *)
Definition watch_events (max : Z) (smp : cpu_sample) : list event :=
  match reading smp with
  | CpuPercent cpu_pct => (if exceeds max cpu_pct then [cpu_warning] else []) ++ [EvSleep]
  | CpuRaises _ => []
  end.

(** A sample of a running process with a CPU percentage. *)
Definition sampled (smp : cpu_sample) : Prop :=
  is_running smp = true /\ exists cpu_pct, reading smp = CpuPercent cpu_pct.

(** Does the sample make the watchdog warn? *)
Definition hot (max : Z) (smp : cpu_sample) : bool :=
  match reading smp with
  | CpuPercent cpu_pct => exceeds max cpu_pct
  | CpuRaises _ => false
  end.

(** [s] with [h] as the streamer's process. *)
Definition holding (h : option process) (s : state) : state :=
  {| ffmpeg_proc := h; shutting_down := shutting_down s; FFMPEG := FFMPEG s;
     spawned := spawned s; captures := captures s; events := events s |}.

(** The process [start_ffmpeg] starts in state [s], when it behaves as [b]. *)
Definition stream_proc (E : Env) (s : state) (ffmpeg_args : string) (b : behaviour)
  : process :=
  {| pid := spawned s;
     cmdline := split_on " " (stream_cmd E (FFMPEG s) ffmpeg_args);
     beh := b |}.

(** A host on which [cat] runs but no other program can be started. *)
Definition no_ffmpeg_env : Env :=
  {| module_dir := "/opt/obico/moonraker_obico";
     JANUS_SERVER := "127.0.0.1";
     pi_version := PyInt 4;
     stream_url := PyStr "http://127.0.0.1/webcam/?action=stream";
     linked_printer := ∅;
     spawn := fun _ cmd =>
       if mentions "cat" cmd then Some (sample_behaviour (Some 1) 0) else None;
     capture_jpeg := fun _ => CaptureReturns (Some "JPEG");
     get_image_info := fun _ => Some ("JPEG", 640, 480);
     utf8_decode := Some;
     py_int := fun _ => Some 10;
     bytes_repr := fun b => b |}.

(** The [cat /etc/debian_version] process started in state [s]. *)
Definition cat_proc (s : state) (b : behaviour) : process :=
  {| pid := spawned s; cmdline := ["cat"; "/etc/debian_version"]; beh := b |}.

(** The major Debian version read from the output of [cat], when it can be
    read: the text before the first dot, as an integer. *)
Definition debian_major (E : Env) (b : behaviour) : option Z :=
  utf8_decode E (stdout_data b) ≫= fun text => py_int E (hd "" (split_on "." text)).

(** The ffmpeg shipped with the module for Debian 11 on 32 bits. *)
Definition bundled_ffmpeg (E : Env) : string :=
  path_join (module_dir E) ["bin"; "rpi_os.11"; "32bits"; "ffmpeg"].

(** [s] with [path] as [FFMPEG]. *)
Definition with_FFMPEG (path : string) (s : state) : state :=
  {| ffmpeg_proc := ffmpeg_proc s; shutting_down := shutting_down s; FFMPEG := path;
     spawned := spawned s; captures := captures s; events := events s |}.

(** The arguments [ffmpeg_from_mjpeg] hands to [start_ffmpeg], line 150. *)
Definition stream_args (E : Env) (img_w img_h : Z) (encoder : string) : string :=
  let '(fps, bitrate) := stream_policy img_w img_h (linked_printer E) in
  "-re -i " +:+ py_str (stream_url E) +:+ " -filter:v fps=" +:+ string_of_Z fps
  +:+ " -b:v " +:+ string_of_Z bitrate +:+ " -pix_fmt yuv420p -s "
  +:+ string_of_Z img_w +:+ "x" +:+ string_of_Z img_h
  +:+ " -flags:v +global_header -vcodec " +:+ encoder.

Definition no_stream_url_msg : string :=
  "stream_url not configured. Unable to stream the webcam.".

(** The event posted when the pipeline fails, lines 102-107. *)
Definition streaming_failed : event :=
  EvPostPrinterEvent
    "moonraker-obico: Webcam Streaming Failed"
    "The webcam streaming failed to start. Obico is now streaming at 0.1 FPS."
    "WARNING"
    "https://www.obico.io/docs/user-guides/webcam-stream-stuck-at-1-10-fps/".

(** * Properties *)

(** ** The stream policy (bitrate table and tier) *)

Lemma bitrate_for_dim_cases (w h : Z) :
  (w * h <= 480 * 270 /\ bitrate_for_dim w h = 400000) \/
  (480 * 270 < w * h <= 960 * 540 /\ bitrate_for_dim w h = 1300000) \/
  (960 * 540 < w * h <= 1280 * 720 /\ bitrate_for_dim w h = 2000000) \/
  (1280 * 720 < w * h /\ bitrate_for_dim w h = 3000000).
Proof.
  unfold bitrate_for_dim; cbv zeta.
  destruct (Z.leb_spec (w * h) (480 * 270)); [left; lia|].
  destruct (Z.leb_spec (w * h) (960 * 540)); [right; left; lia|].
  destruct (Z.leb_spec (w * h) (1280 * 720)); [right; right; left; lia|].
  right; right; right; lia.
Qed.

Lemma stream_policy_pro (w h : Z) (lp : gmap string pyval) :
  truthy (dict_get lp "is_pro") = true ->
  stream_policy w h lp = (25, bitrate_for_dim w h).
Proof. unfold stream_policy; intros ->; reflexivity. Qed.

Lemma stream_policy_not_pro (w h : Z) (lp : gmap string pyval) :
  truthy (dict_get lp "is_pro") = false ->
  stream_policy w h lp = (5, Z.quot (bitrate_for_dim w h) 4).
Proof. unfold stream_policy; intros ->; reflexivity. Qed.

(** C6: on the full tier the policy is frame rate 25 with the bitrate of the
    table by pixel area (400,000 up to 480x270; 1,300,000 up to 960x540;
    2,000,000 up to 1280x720; 3,000,000 above); on the restricted tier it is
    frame rate 5 with that bitrate integer-divided by 4.  (1640, 1232)
    restricted gives (5, 750,000) and (960, 540) full gives (25, 1,300,000). *)
Theorem stream_policy_table :
  forall (w h : Z) (lp : gmap string pyval),
    let is_pro := truthy (dict_get lp "is_pro") in
    let fps := (stream_policy w h lp).1 in
    let bitrate := (stream_policy w h lp).2 in
    fps = (if is_pro then 25 else 5) /\
    (w * h <= 480 * 270 ->
       bitrate = if is_pro then 400000 else 400000 / 4) /\
    (480 * 270 < w * h <= 960 * 540 ->
       bitrate = if is_pro then 1300000 else 1300000 / 4) /\
    (960 * 540 < w * h <= 1280 * 720 ->
       bitrate = if is_pro then 2000000 else 2000000 / 4) /\
    (1280 * 720 < w * h ->
       bitrate = if is_pro then 3000000 else 3000000 / 4) /\
    stream_policy 1640 1232 {[ "is_pro" := PyBool false ]} = (5, 750000) /\
    stream_policy 1640 1232 ∅ = (5, 750000) /\
    stream_policy 960 540 {[ "is_pro" := PyBool true ]} = (25, 1300000).
Proof.
  intros w h lp. cbv zeta.
  assert (Hq : bitrate_for_dim w h `quot` 4 = bitrate_for_dim w h / 4).
  { apply Z.quot_div_nonneg; [|lia].
    destruct (bitrate_for_dim_cases w h) as [[_ ->]|[[_ ->]|[[_ ->]|[_ ->]]]]; lia. }
  assert (Hpol : stream_policy w h lp
                 = if truthy (dict_get lp "is_pro") then (25, bitrate_for_dim w h)
                   else (5, bitrate_for_dim w h / 4)).
  { destruct (truthy (dict_get lp "is_pro")) eqn:Hp.
    - apply stream_policy_pro; assumption.
    - rewrite stream_policy_not_pro by assumption. now rewrite Hq. }
  rewrite Hpol. clear Hpol Hq.
  repeat apply conj.
  2-5: (intros Ha; destruct (truthy (dict_get lp "is_pro")); cbn [snd];
        destruct (bitrate_for_dim_cases w h) as [[? ->]|[[? ->]|[[? ->]|[? ->]]]];
        first [reflexivity | exfalso; lia]).
  - destruct (truthy (dict_get lp "is_pro")); reflexivity.
  - rewrite stream_policy_not_pro; [reflexivity|].
    unfold dict_get. rewrite lookup_singleton_eq. reflexivity.
  - rewrite stream_policy_not_pro; [reflexivity|].
    unfold dict_get. rewrite lookup_empty. reflexivity.
  - rewrite stream_policy_pro; [reflexivity|].
    unfold dict_get. rewrite lookup_singleton_eq. reflexivity.
Qed.

(** C7: for one tier the bitrate does not decrease when the pixel area
    grows; for one resolution the restricted-tier bitrate is exactly one
    quarter of the full-tier bitrate; the bitrate is positive and the frame
    rate is 5 or 25. *)
Theorem stream_policy_monotone_quarter_positive :
  forall (w1 h1 w2 h2 : Z) (pro basic : gmap string pyval),
    w1 * h1 <= w2 * h2 ->
    truthy (dict_get pro "is_pro") = true ->
    truthy (dict_get basic "is_pro") = false ->
    (stream_policy w1 h1 pro).2 <= (stream_policy w2 h2 pro).2 /\
    (stream_policy w1 h1 basic).2 <= (stream_policy w2 h2 basic).2 /\
    (stream_policy w1 h1 basic).2 = (stream_policy w1 h1 pro).2 / 4 /\
    4 * (stream_policy w1 h1 basic).2 = (stream_policy w1 h1 pro).2 /\
    (forall lp : gmap string pyval,
        0 < (stream_policy w1 h1 lp).2 /\
        ((stream_policy w1 h1 lp).1 = 5 \/ (stream_policy w1 h1 lp).1 = 25)).
Proof.
  intros w1 h1 w2 h2 pro basic Harea Hpro Hbasic.
  rewrite !(stream_policy_pro _ _ pro) by assumption.
  rewrite !(stream_policy_not_pro _ _ basic) by assumption.
  cbn [fst snd].
  assert (Hlp : forall lp : gmap string pyval,
             0 < (stream_policy w1 h1 lp).2 /\
             ((stream_policy w1 h1 lp).1 = 5 \/ (stream_policy w1 h1 lp).1 = 25)).
  { intros lp. destruct (truthy (dict_get lp "is_pro")) eqn:Hlp;
      [rewrite stream_policy_pro by assumption
      |rewrite stream_policy_not_pro by assumption];
      cbn [fst snd];
      destruct (bitrate_for_dim_cases w1 h1) as [[_ ->]|[[_ ->]|[[_ ->]|[_ ->]]]];
      (split; [reflexivity | auto]). }
  destruct (bitrate_for_dim_cases w1 h1) as [[? ->]|[[? ->]|[[? ->]|[? ->]]]];
  destruct (bitrate_for_dim_cases w2 h2) as [[? ->]|[[? ->]|[[? ->]|[? ->]]]];
  try (exfalso; lia);
  (split; [discriminate|]); (split; [discriminate|]);
  (split; [reflexivity|]); (split; [reflexivity|]); exact Hlp.
Qed.

Lemma stream_policy_monotone_quarter_positive_witness :
  (stream_policy 640 480 ∅).2 <= (stream_policy 1920 1080 ∅).2 /\
  4 * (stream_policy 640 480 ∅).2
  = (stream_policy 640 480 {[ "is_pro" := PyBool true ]}).2.
Proof.
  destruct (stream_policy_monotone_quarter_positive
              640 480 1920 1080 {[ "is_pro" := PyBool true ]} ∅)
    as (_ & Hmono & _ & Hquarter & _).
  - lia.
  - unfold dict_get. rewrite lookup_singleton_eq. reflexivity.
  - unfold dict_get. rewrite lookup_empty. reflexivity.
  - split; assumption.
Defined.

(** ** Reading the event log *)

Lemma state_eq (s1 s2 : state) :
  ffmpeg_proc s1 = ffmpeg_proc s2 -> shutting_down s1 = shutting_down s2 ->
  FFMPEG s1 = FFMPEG s2 -> spawned s1 = spawned s2 ->
  captures s1 = captures s2 -> events s1 = events s2 -> s1 = s2.
Proof. destruct s1, s2; cbn; congruence. Qed.

Lemma advance_advance (s : state) evs1 evs2 n1 n2 c1 c2 :
  advance (advance s evs1 n1 c1) evs2 n2 c2
  = advance s (evs1 ++ evs2) (n1 + n2) (c1 + c2).
Proof. apply state_eq; cbn; rewrite <- ?app_assoc; auto; lia. Qed.

Lemma new_events_advance (s : state) evs n c :
  new_events s (advance s evs n c) = evs.
Proof. unfold new_events; cbn. apply drop_app_length. Qed.

(** ** The encoder probe *)

Arguments trial_cmd : simpl never.
Arguments split_on : simpl never.

(** One turn of the loop. *)
Lemma h264_encoder_loop_cons (E : Env) (tv encoder : string) (rest : list string)
  (s : state) :
  h264_encoder_loop E tv (encoder :: rest) s =
  match spawn E (spawned s) (trial_args (FFMPEG s) tv encoder) with
  | None =>
      (Raise OSError,
       advance s [EvLog LvlDebug ("Popen: " +:+ trial_cmd (FFMPEG s) tv encoder)] 0 0)
  | Some b =>
      let s' := advance s (trial_events s tv encoder b) 1 0 in
      match exit_after b with
      | None => (Hang, s')
      | Some _ => if returncode b =? 0 then (Ret encoder, s')
                  else h264_encoder_loop E tv rest s'
      end
  end.
Proof.
  cbn [h264_encoder_loop].
  unfold bind, get, log, emit, Popen, wait, trial_args; cbn.
  destruct (spawn E (spawned s) _) as [b|] eqn:Hs; cbn.
  - destruct (exit_after b) eqn:Hx; cbn;
      [destruct (returncode b =? 0) eqn:Hrc|];
      repeat f_equal; try (apply state_eq; cbn; rewrite <- ?app_assoc; auto; lia).
  - f_equal. apply state_eq; cbn; auto; lia.
Qed.

Lemma advance_nil (s : state) : advance s [] 0 0 = s.
Proof. apply state_eq; cbn; rewrite ?app_nil_r; auto; lia. Qed.

Lemma all_fail_cons_inv E ffmpeg tv n e encoders :
  all_fail E ffmpeg tv n (e :: encoders) ->
  (exists rc, trial_of E ffmpeg tv n e = TrialExits rc /\ rc <> 0) /\
  all_fail E ffmpeg tv (S n) encoders.
Proof.
  intros H. split.
  - destruct (H 0%nat e eq_refl) as (rc & Ht & Hrc).
    exists rc. rewrite Nat.add_0_r in Ht. auto.
  - intros k e' Hk. destruct (H (S k) e' Hk) as (rc & Ht & Hrc).
    exists rc. replace (S n + k)%nat with (n + S k)%nat by lia. auto.
Qed.

(** The loop runs through a prefix of failing candidates, starting one trial
    for each, and goes on with the rest. *)
Lemma h264_encoder_loop_skips (E : Env) (tv : string) (pre rest : list string) :
  forall s : state,
    all_fail E (FFMPEG s) tv (spawned s) pre ->
    exists evs,
      popen_cmds evs = map (trial_args (FFMPEG s) tv) pre /\
      h264_encoder_loop E tv (pre ++ rest) s
      = h264_encoder_loop E tv rest (advance s evs (length pre) 0).
Proof.
  induction pre as [|e pre IH]; intros s Hfail.
  - exists []. split; [reflexivity|]. cbn [app length]. now rewrite advance_nil.
  - apply all_fail_cons_inv in Hfail as [(rc & Ht & Hrc) Hrest].
    unfold trial_of in Ht.
    destruct (spawn E (spawned s) (trial_args (FFMPEG s) tv e)) as [b|] eqn:Hs;
      [|discriminate].
    destruct (exit_after b) as [d|] eqn:Hx; [|discriminate].
    injection Ht as Ht.
    set (s1 := advance s (trial_events s tv e b) 1 0).
    destruct (IH s1) as (evs & Hcmds & Hrun).
    { subst s1; cbn [FFMPEG spawned advance].
      replace (spawned s + 1)%nat with (S (spawned s)) by lia. exact Hrest. }
    exists (trial_events s tv e b ++ evs). split.
    + unfold popen_cmds in *. rewrite omap_app, Hcmds. reflexivity.
    + cbn [app]. rewrite h264_encoder_loop_cons, Hs. cbv zeta. rewrite Hx.
      apply Z.eqb_neq in Hrc. rewrite Ht, Hrc. fold s1. rewrite Hrun.
      subst s1. rewrite advance_advance. reflexivity.
Qed.

(** The first candidate whose trial exits with status 0 is returned, after
    one trial for each candidate up to it and none for those behind it. *)
Lemma h264_encoder_loop_first_success (E : Env) (tv : string)
  (pre : list string) (encoder : string) (post : list string) (s : state) :
  all_fail E (FFMPEG s) tv (spawned s) pre ->
  trial_of E (FFMPEG s) tv (spawned s + length pre) encoder = TrialExits 0 ->
  exists evs,
    popen_cmds evs = map (trial_args (FFMPEG s) tv) (pre ++ [encoder]) /\
    h264_encoder_loop E tv (pre ++ encoder :: post) s
    = (Ret encoder, advance s evs (S (length pre)) 0).
Proof.
  intros Hfail Hok.
  destruct (h264_encoder_loop_skips E tv pre (encoder :: post) s Hfail)
    as (evs & Hcmds & ->).
  set (s1 := advance s evs (length pre) 0).
  unfold trial_of in Hok.
  rewrite h264_encoder_loop_cons.
  change (FFMPEG s1) with (FFMPEG s). change (spawned s1) with (spawned s + length pre)%nat.
  destruct (spawn E _ _) as [b|] eqn:Hs; [|discriminate].
  cbv zeta. destruct (exit_after b) as [d|]; [|discriminate].
  injection Hok as ->. cbn [Z.eqb].
  exists (evs ++ trial_events s1 tv encoder b). split.
  - unfold popen_cmds in *. rewrite omap_app, Hcmds, map_app. reflexivity.
  - subst s1. rewrite advance_advance. do 2 f_equal; lia.
Qed.

(** When every candidate fails the loop raises, after one trial for each. *)
Lemma h264_encoder_loop_all_fail (E : Env) (tv : string) (encoders : list string)
  (s : state) :
  all_fail E (FFMPEG s) tv (spawned s) encoders ->
  exists evs,
    popen_cmds evs = map (trial_args (FFMPEG s) tv) encoders /\
    h264_encoder_loop E tv encoders s
    = (Raise (Exception no_encoder_msg), advance s evs (length encoders) 0).
Proof.
  intros Hfail.
  destruct (h264_encoder_loop_skips E tv encoders [] s Hfail) as (evs & Hcmds & Hrun).
  rewrite app_nil_r in Hrun. exists evs. split; [exact Hcmds|]. rewrite Hrun. reflexivity.
Qed.

(** A candidate whose trial never exits blocks the loop for ever. *)
Lemma h264_encoder_loop_hangs (E : Env) (tv : string)
  (pre : list string) (encoder : string) (post : list string) (s : state) :
  all_fail E (FFMPEG s) tv (spawned s) pre ->
  trial_of E (FFMPEG s) tv (spawned s + length pre) encoder = TrialHangs ->
  (h264_encoder_loop E tv (pre ++ encoder :: post) s).1 = Hang.
Proof.
  intros Hfail Hhang.
  destruct (h264_encoder_loop_skips E tv pre (encoder :: post) s Hfail)
    as (evs & Hcmds & ->).
  set (s1 := advance s evs (length pre) 0).
  unfold trial_of in Hhang.
  rewrite h264_encoder_loop_cons.
  change (FFMPEG s1) with (FFMPEG s). change (spawned s1) with (spawned s + length pre)%nat.
  destruct (spawn E _ _) as [b|] eqn:Hs; [|discriminate].
  cbv zeta. destruct (exit_after b) as [d|]; [discriminate|]. reflexivity.
Qed.

(** C3: the candidates are tried in the order h264_omx, h264_v4l2m2m; the
    first one whose trial process exits with status 0 is returned and no
    trial is started after it; when both trials exit with a non-zero status
    the probe raises. *)
Theorem h264_encoder_first_success :
  forall (E : Env) (s : state),
    let ffmpeg := FFMPEG s in
    let tv := test_video E in
    let t1 := trial_of E ffmpeg tv (spawned s) "h264_omx" in
    let t2 := trial_of E ffmpeg tv (S (spawned s)) "h264_v4l2m2m" in
    let r := h264_encoder E s in
    let launched := popen_cmds (new_events s r.2) in
    encoder_candidates = ["h264_omx"; "h264_v4l2m2m"] /\
    (t1 = TrialExits 0 ->
       r.1 = Ret "h264_omx" /\
       launched = [trial_args ffmpeg tv "h264_omx"]) /\
    (forall rc1, t1 = TrialExits rc1 -> rc1 <> 0 -> t2 = TrialExits 0 ->
       r.1 = Ret "h264_v4l2m2m" /\
       launched = [trial_args ffmpeg tv "h264_omx";
                   trial_args ffmpeg tv "h264_v4l2m2m"]) /\
    (forall rc1 rc2, t1 = TrialExits rc1 -> rc1 <> 0 ->
       t2 = TrialExits rc2 -> rc2 <> 0 ->
       r.1 = Raise (Exception no_encoder_msg) /\
       launched = [trial_args ffmpeg tv "h264_omx";
                   trial_args ffmpeg tv "h264_v4l2m2m"]).
Proof.
  intros E s ffmpeg tv t1 t2 r launched.
  split; [reflexivity|]. repeat apply conj.
  - intros H1.
    destruct (h264_encoder_loop_first_success E tv [] "h264_omx" ["h264_v4l2m2m"] s)
      as (evs & Hcmds & Hrun).
    { intros k e Hk. destruct k; discriminate. }
    { cbn [length]. rewrite Nat.add_0_r. exact H1. }
    subst launched r. unfold h264_encoder, encoder_candidates.
    cbn [app] in Hrun. fold tv. rewrite Hrun. cbn [fst snd].
    rewrite new_events_advance. auto.
  - intros rc1 H1 Hrc1 H2.
    destruct (h264_encoder_loop_first_success E tv ["h264_omx"] "h264_v4l2m2m" [] s)
      as (evs & Hcmds & Hrun).
    { intros k e Hk. destruct k as [|[|k]]; try discriminate.
      injection Hk as <-. exists rc1. rewrite Nat.add_0_r. auto. }
    { cbn [length]. rewrite Nat.add_1_r. exact H2. }
    subst launched r. unfold h264_encoder, encoder_candidates.
    cbn [app] in Hrun. fold tv. rewrite Hrun. cbn [fst snd].
    rewrite new_events_advance. auto.
  - intros rc1 rc2 H1 Hrc1 H2 Hrc2.
    destruct (h264_encoder_loop_all_fail E tv ["h264_omx"; "h264_v4l2m2m"] s)
      as (evs & Hcmds & Hrun).
    { intros k e Hk. destruct k as [|[|k]]; try discriminate; injection Hk as <-.
      - exists rc1. rewrite Nat.add_0_r. auto.
      - exists rc2. rewrite Nat.add_1_r. auto. }
    subst launched r. unfold h264_encoder, encoder_candidates.
    fold tv. rewrite Hrun. cbn [fst snd].
    rewrite new_events_advance. auto.
Qed.

(** The probe on a host where only h264_v4l2m2m encodes: two trials, in the
    priority order, and the second candidate is returned. *)
Example h264_encoder_second_candidate :
  let r := h264_encoder (sample_env ["h264_v4l2m2m"] [] 0) module_loaded in
  r.1 = Ret "h264_v4l2m2m" /\
  map (fun cmd => cmd !! 7%nat) (popen_cmds (events r.2))
  = [Some "h264_omx"; Some "h264_v4l2m2m"].
Proof. vm_compute. split; reflexivity. Qed.

(** The probe on a host where h264_omx encodes: one trial only. *)
Example h264_encoder_first_candidate :
  let r := h264_encoder (sample_env ["h264_omx"; "h264_v4l2m2m"] [] 0) module_loaded in
  r.1 = Ret "h264_omx" /\
  map (fun cmd => cmd !! 7%nat) (popen_cmds (events r.2)) = [Some "h264_omx"].
Proof. vm_compute. split; reflexivity. Qed.

(** The outcome of the probe as a function of what its two trials do. *)
Lemma h264_encoder_outcome (E : Env) (s : state) :
  (h264_encoder E s).1 =
  match trial_of E (FFMPEG s) (test_video E) (spawned s) "h264_omx" with
  | TrialNotStarted => Raise OSError
  | TrialHangs => Hang
  | TrialExits rc1 =>
      if rc1 =? 0 then Ret "h264_omx"
      else match trial_of E (FFMPEG s) (test_video E) (S (spawned s)) "h264_v4l2m2m" with
           | TrialNotStarted => Raise OSError
           | TrialHangs => Hang
           | TrialExits rc2 =>
               if rc2 =? 0 then Ret "h264_v4l2m2m"
               else Raise (Exception no_encoder_msg)
           end
  end.
Proof.
  unfold h264_encoder, encoder_candidates, trial_of.
  rewrite h264_encoder_loop_cons.
  destruct (spawn E (spawned s) _) as [b1|]; [|reflexivity].
  cbv zeta. destruct (exit_after b1); [|reflexivity].
  destruct (returncode b1 =? 0); [reflexivity|].
  rewrite h264_encoder_loop_cons.
  cbn [FFMPEG spawned advance]. rewrite Nat.add_1_r.
  destruct (spawn E (S (spawned s)) _) as [b2|]; [|reflexivity].
  cbv zeta. destruct (exit_after b2); [|reflexivity].
  destruct (returncode b2 =? 0); reflexivity.
Qed.

(** The wait on a trial process has no timeout: the probe blocks for ever
    exactly when a trial it starts never exits, be it the trial of h264_omx,
    or the trial of h264_v4l2m2m after h264_omx failed. *)
Theorem h264_encoder_waits_without_timeout :
  forall (E : Env) (s : state),
    let t1 := trial_of E (FFMPEG s) (test_video E) (spawned s) "h264_omx" in
    let t2 := trial_of E (FFMPEG s) (test_video E) (S (spawned s)) "h264_v4l2m2m" in
    (h264_encoder E s).1 = Hang <->
    (t1 = TrialHangs \/ exists rc1, t1 = TrialExits rc1 /\ rc1 <> 0 /\ t2 = TrialHangs).
Proof.
  intros E s t1 t2. rewrite h264_encoder_outcome. fold t1 t2.
  destruct t1 as [| |rc1].
  - split; [discriminate|]. intros [H|(rc & H & _)]; discriminate.
  - split; auto.
  - destruct (Z.eqb_spec rc1 0) as [->|Hrc1].
    + split; [discriminate|]. intros [H|(rc & H & Hrc & _)]; [discriminate|].
      injection H as <-. contradiction.
    + destruct t2 as [| |rc2].
      * split; [discriminate|]. intros [H|(rc & _ & _ & H)]; discriminate.
      * split; [|reflexivity]. intros _. right. exists rc1. auto.
      * split; [destruct (rc2 =? 0); discriminate|].
        intros [H|(rc & _ & _ & H)]; discriminate.
Qed.

(** C4: the encoder probe at a host where the trial of h264_omx never
    exits: the wait of line 127 has no timeout and the probe never returns,
    having started that one trial.  The other two waits of the module are
    bounded: on a host where [cat] never exits the choice of the binary
    raises [TimeoutExpired], and a streaming process that never exits lets
    [start_ffmpeg] return. *)
Lemma h264_encoder_blocks_on_hanging_trial :
  trial_of (sample_env [] ["h264_omx"] 0) "ffmpeg"
    (test_video (sample_env [] ["h264_omx"] 0)) 0 "h264_omx" = TrialHangs /\
  (h264_encoder (sample_env [] ["h264_omx"] 0) module_loaded).1 = Hang /\
  spawned (h264_encoder (sample_env [] ["h264_omx"] 0) module_loaded).2 = 1%nat /\
  (set_ffmpeg_if_needed (sample_env [] ["cat"] 0) module_loaded).1
  = Raise TimeoutExpired /\
  (start_ffmpeg (sample_env [] ["-loglevel"] 0) "-re" module_loaded).1 = Ret tt.
Proof. vm_compute. repeat split. Qed.

(** ** The resolution probe *)

Lemma get_webcam_resolution_body_outcome (E : Env) (s : state) :
  get_webcam_resolution_body E s
  = (match attempt E (captures s) with
     | Some info => Ret info
     | None => Raise (attempt_error E (captures s))
     end, advance s [] 0 1).
Proof.
  unfold get_webcam_resolution_body, attempt, attempt_error, bind, call_capture_jpeg.
  destruct (capture_jpeg E (captures s)) as [e|[data|]]; cbn;
    [|destruct (String.eqb data ""); cbn; [|destruct (get_image_info E data); cbn]|];
    (f_equal; apply state_eq; cbn; rewrite ?app_nil_r; auto; lia).
Qed.

(** A try that succeeds ends the loop, with no record and no sleep. *)
Lemma on_exception_loop_stop (E : Env) (tries retries : nat) (s : state) info :
  attempt E (captures s) = Some info ->
  on_exception_loop tries retries (get_webcam_resolution_body E) s
  = (Ret info, advance s [] 0 1).
Proof.
  intros Ha. destruct retries; cbn [on_exception_loop]; unfold try_except;
    rewrite get_webcam_resolution_body_outcome, Ha; reflexivity.
Qed.

(** The last try allowed, when it fails: the "Giving up" record, then its
    exception. *)
Lemma on_exception_loop_last (E : Env) (tries : nat) (s : state) :
  attempt E (captures s) = None ->
  on_exception_loop tries 0 (get_webcam_resolution_body E) s
  = (Raise (attempt_error E (captures s)),
     advance s [EvBackoffLog LvlError tries (attempt_error E (captures s))] 0 1).
Proof.
  intros Ha. cbn [on_exception_loop]. unfold try_except.
  rewrite get_webcam_resolution_body_outcome, Ha. cbn [any_Exception].
  unfold bind, emit, raise. f_equal.
  apply state_eq; cbn; rewrite ?app_nil_r; auto.
Qed.

(** A try that fails with tries left: the "Backing off" record, a sleep,
    and the next try. *)
Lemma on_exception_loop_retry (E : Env) (tries retries : nat) (s : state) :
  attempt E (captures s) = None ->
  on_exception_loop tries (S retries) (get_webcam_resolution_body E) s
  = on_exception_loop (S tries) retries (get_webcam_resolution_body E)
      (advance s [EvBackoffLog LvlInfo tries (attempt_error E (captures s)); EvSleep]
         0 1).
Proof.
  intros Ha. cbn [on_exception_loop]. unfold try_except.
  rewrite get_webcam_resolution_body_outcome, Ha. cbn [any_Exception].
  unfold bind, emit. f_equal.
  apply state_eq; cbn; rewrite ?app_nil_r, <- ?app_assoc; auto.
Qed.

(** After [n] failed attempts the next one succeeds: the decorated function
    returns its result, having made [n + 1] calls, and logged and slept [n]
    times. *)
Lemma on_exception_loop_succeeds (E : Env) info :
  forall (n tries retries : nat) (s : state),
    (n <= retries)%nat ->
    (forall k, (k < n)%nat -> attempt E (captures s + k) = None) ->
    attempt E (captures s + n) = Some info ->
    on_exception_loop tries retries (get_webcam_resolution_body E) s
    = (Ret info, advance s (backoff_events E tries (captures s) n) 0 (S n)).
Proof.
  induction n as [|n IH]; intros tries retries s Hle Hfail Hok.
  - rewrite Nat.add_0_r in Hok.
    rewrite (on_exception_loop_stop E tries retries s info Hok). reflexivity.
  - destruct retries as [|retries]; [lia|].
    rewrite on_exception_loop_retry
      by (rewrite <- (Nat.add_0_r (captures s)); apply Hfail; lia).
    rewrite IH.
    + rewrite advance_advance. cbn [captures advance backoff_events].
      rewrite Nat.add_1_r. reflexivity.
    + lia.
    + intros k Hk. cbn [captures advance].
      replace (captures s + 1 + k)%nat with (captures s + S k)%nat by lia.
      apply Hfail. lia.
    + cbn [captures advance].
      replace (captures s + 1 + n)%nat with (captures s + S n)%nat by lia.
      exact Hok.
Qed.

(** When the first [retries + 1] attempts all fail, the decorated function
    raises the exception of the last of them after exactly that many calls,
    the "Giving up" record being the last thing it does. *)
Lemma on_exception_loop_gives_up (E : Env) :
  forall (retries tries : nat) (s : state),
    (forall k, (k <= retries)%nat -> attempt E (captures s + k) = None) ->
    on_exception_loop tries retries (get_webcam_resolution_body E) s
    = (Raise (attempt_error E (captures s + retries)),
       advance s
         (backoff_events E tries (captures s) retries
          ++ [EvBackoffLog LvlError (tries + retries)
                (attempt_error E (captures s + retries))])
         0 (S retries)).
Proof.
  induction retries as [|retries IH]; intros tries s Hfail.
  - rewrite on_exception_loop_last
      by (rewrite <- (Nat.add_0_r (captures s)); apply Hfail; lia).
    rewrite !Nat.add_0_r. reflexivity.
  - rewrite on_exception_loop_retry
      by (rewrite <- (Nat.add_0_r (captures s)); apply Hfail; lia).
    rewrite IH.
    + rewrite advance_advance. cbn [captures advance backoff_events].
      rewrite Nat.add_1_r.
      replace (S (captures s) + retries)%nat with (captures s + S retries)%nat by lia.
      replace (S tries + retries)%nat with (tries + S retries)%nat by lia.
      reflexivity.
    + intros k Hk. cbn [captures advance].
      replace (captures s + 1 + k)%nat with (captures s + S k)%nat by lia.
      apply Hfail. lia.
Qed.

(** Whatever the captures do, the loop is in one of the two cases above. *)
Lemma on_exception_loop_outcome (E : Env) :
  forall (retries tries : nat) (s : state),
    exists n : nat,
      (1 <= n <= S retries)%nat /\
      (forall k, (k < n - 1)%nat -> attempt E (captures s + k) = None) /\
      ((exists info,
           attempt E (captures s + (n - 1)) = Some info /\
           on_exception_loop tries retries (get_webcam_resolution_body E) s
           = (Ret info, advance s (backoff_events E tries (captures s) (n - 1)) 0 n)) \/
       (n = S retries /\ attempt E (captures s + retries) = None /\
        on_exception_loop tries retries (get_webcam_resolution_body E) s
        = (Raise (attempt_error E (captures s + retries)),
           advance s
             (backoff_events E tries (captures s) retries
              ++ [EvBackoffLog LvlError (tries + retries)
                    (attempt_error E (captures s + retries))])
             0 (S retries)))).
Proof.
  induction retries as [|retries IH]; intros tries s.
  - destruct (attempt E (captures s)) as [info|] eqn:Ha.
    + exists 1%nat. split; [lia|]. split; [intros k Hk; lia|]. left. exists info.
      cbn [Nat.sub]. rewrite Nat.add_0_r. split; [exact Ha|].
      apply (on_exception_loop_succeeds E info 0); [lia|intros k Hk; lia|].
      now rewrite Nat.add_0_r.
    + exists 1%nat. split; [lia|]. split; [intros k Hk; lia|]. right.
      split; [reflexivity|]. rewrite Nat.add_0_r. split; [exact Ha|].
      rewrite <- (Nat.add_0_r (captures s)) at 1 3.
      apply on_exception_loop_gives_up.
      intros k Hk. replace k with 0%nat by lia. now rewrite Nat.add_0_r.
  - destruct (attempt E (captures s)) as [info|] eqn:Ha.
    + exists 1%nat. split; [lia|]. split; [intros k Hk; lia|]. left. exists info.
      cbn [Nat.sub]. rewrite Nat.add_0_r. split; [exact Ha|].
      apply (on_exception_loop_succeeds E info 0); [lia|intros k Hk; lia|].
      now rewrite Nat.add_0_r.
    + destruct (IH (S tries) (advance s
                  [EvBackoffLog LvlInfo tries (attempt_error E (captures s)); EvSleep]
                  0 1))
        as (n & Hn & Hfail & Hres).
      cbn [captures advance] in Hfail, Hres.
      destruct n as [|m]; [lia|].
      replace (S m - 1)%nat with m in Hfail, Hres by lia.
      assert (Hfail' : forall k, (k < S m)%nat -> attempt E (captures s + k) = None).
      { intros k Hk. destruct k as [|k]; [now rewrite Nat.add_0_r|].
        replace (captures s + S k)%nat with (captures s + 1 + k)%nat by lia.
        apply Hfail. lia. }
      exists (S (S m)). replace (S (S m) - 1)%nat with (S m) by lia.
      split; [lia|]. split; [exact Hfail'|].
      destruct Hres as [(info & Hok & _)|(Hm & Hnone & _)].
      * replace (captures s + 1 + m)%nat with (captures s + S m)%nat in Hok by lia.
        left. exists info. split; [exact Hok|].
        apply on_exception_loop_succeeds; [lia|exact Hfail'|exact Hok].
      * injection Hm as ->.
        replace (captures s + 1 + retries)%nat with (captures s + S retries)%nat
          in Hnone by lia.
        right. split; [reflexivity|]. split; [exact Hnone|].
        apply on_exception_loop_gives_up.
        intros k Hk. destruct (Nat.eq_dec k (S retries)) as [->|Hne];
          [exact Hnone|apply Hfail'; lia].
Qed.

Lemma filter_report_backoff_events (E : Env) (n : nat) :
  forall tries c : nat, List.filter is_report (backoff_events E tries c n) = [].
Proof. induction n as [|n IH]; intros tries c; cbn; auto. Qed.

Lemma filter_sleep_backoff_events (E : Env) (n : nat) :
  forall tries c : nat,
    length (List.filter is_sleep (backoff_events E tries c n)) = n.
Proof. induction n as [|n IH]; intros tries c; cbn; auto. Qed.

(** C5: when the capture fails the first [N - 1] times and succeeds on
    attempt [N <= 20], the probe returns the sample of attempt [N], after
    [N] captures; when the capture always fails the probe raises after
    exactly 20 captures. *)
Theorem get_webcam_resolution_retry :
  forall (E : Env) (s : state),
    (forall (N : nat) (sample : string * Z * Z),
        (1 <= N <= 20)%nat ->
        (forall k, (k < N - 1)%nat -> attempt E (captures s + k) = None) ->
        attempt E (captures s + (N - 1)) = Some sample ->
        (get_webcam_resolution E s).1 = Ret sample /\
        captures (get_webcam_resolution E s).2 = (captures s + N)%nat) /\
    ((forall k, (k < 20)%nat -> attempt E (captures s + k) = None) ->
     (exists e, (get_webcam_resolution E s).1 = Raise e) /\
     captures (get_webcam_resolution E s).2 = (captures s + 20)%nat).
Proof.
  intros E s. unfold get_webcam_resolution, on_exception. cbn [Nat.pred]. split.
  - intros N sample HN Hfail Hok.
    rewrite (on_exception_loop_succeeds E sample (N - 1) 1 19 s) by (auto; lia).
    cbn [fst snd captures advance]. split; [reflexivity|lia].
  - intros Hfail.
    rewrite (on_exception_loop_gives_up E 19 1 s)
      by (intros k Hk; apply Hfail; lia).
    cbn [fst snd captures advance]. split; [eauto|lia].
Qed.

(** A webcam that answers from its third capture on: three captures. *)
Example get_webcam_resolution_third_attempt :
  let r := get_webcam_resolution (sample_env [] [] 2) module_loaded in
  r.1 = Ret ("JPEG", 1640, 1232) /\ captures r.2 = 3%nat /\
  events r.2 = [EvBackoffLog LvlInfo 1 (Exception not_jpeg_msg); EvSleep;
                EvBackoffLog LvlInfo 2 (Exception not_jpeg_msg); EvSleep].
Proof. vm_compute. repeat split. Qed.

(** A webcam that never answers: an exception after twenty captures. *)
Example get_webcam_resolution_never :
  let r := get_webcam_resolution (sample_env [] [] 100) module_loaded in
  r.1 = Raise (Exception not_jpeg_msg) /\ captures r.2 = 20%nat.
Proof. vm_compute. repeat split. Qed.

(** The twentieth capture is the last one that can still succeed. *)
Example get_webcam_resolution_twentieth_attempt :
  (get_webcam_resolution (sample_env [] [] 19) module_loaded).1
  = Ret ("JPEG", 1640, 1232) /\
  (get_webcam_resolution (sample_env [] [] 20) module_loaded).1
  = Raise (Exception not_jpeg_msg).
Proof. vm_compute. repeat split. Qed.

(** ** The stderr monitor *)

Arguments stderr_msg : simpl never.
Arguments ffmpeg_quit_msg : simpl never.
Arguments startup_msg : simpl never.
Arguments stream_cmd : simpl never.
Arguments run_calls : simpl never.

Lemma append_assoc (a b c : string) : (a +:+ b) +:+ c = a +:+ (b +:+ c).
Proof.
  induction a as [|x a IH]; [reflexivity|].
  change ((String x a +:+ b) +:+ c) with (String x ((a +:+ b) +:+ c)).
  change (String x a +:+ (b +:+ c)) with (String x (a +:+ (b +:+ c))).
  now rewrite IH.
Qed.

Lemma append_nil_r (a : string) : a +:+ "" = a.
Proof.
  induction a as [|x a IH]; [reflexivity|].
  change (String x a +:+ "") with (String x (a +:+ "")). now rewrite IH.
Qed.

Lemma occurs_in_self (l : string) : occurs_in l l.
Proof. exists "", "". now rewrite append_nil_r. Qed.

Lemma occurs_in_app_l (l a text : string) :
  occurs_in l text -> occurs_in l (a +:+ text).
Proof.
  intros (pre & post & ->). exists (a +:+ pre), post. now rewrite append_assoc.
Qed.

Lemma occurs_in_app_r (l text b : string) :
  occurs_in l text -> occurs_in l (text +:+ b).
Proof.
  intros (pre & post & ->). exists pre, (post +:+ b). now rewrite !append_assoc.
Qed.

(** Every string joined by ['sep'.join(ls)] occurs in the result. *)
Lemma occurs_in_concat (sep l : string) (ls : list string) :
  In l ls -> occurs_in l (String.concat sep ls).
Proof.
  induction ls as [|x ls IH]; cbn [In]; [tauto|].
  destruct ls as [|y ls].
  - intros [<-|[]]. apply occurs_in_self.
  - change (String.concat sep (x :: y :: ls))
      with (x +:+ sep +:+ String.concat sep (y :: ls)).
    intros [<-|H].
    + apply occurs_in_app_r, occurs_in_self.
    + apply occurs_in_app_l, occurs_in_app_l, IH, H.
Qed.

Lemma deque_append_length (n : nat) (d : list string) (x : string) :
  (0 < n)%nat -> (length d <= n)%nat -> (length (deque_append n d x) <= n)%nat.
Proof.
  intros Hn Hd. unfold deque_append.
  destruct (Nat.leb_spec n (length d)).
  - rewrite length_app, length_drop. cbn. lia.
  - rewrite length_app. cbn. lia.
Qed.

(** Appending lines one by one to a deque of capacity [n] keeps the last
    [n] of them. *)
Lemma deque_append_fold (n : nat) (lines : list string) :
  forall d : list string,
    (0 < n)%nat -> (length d <= n)%nat ->
    fold_left (deque_append n) lines d
    = drop (length (d ++ lines) - n) (d ++ lines).
Proof.
  induction lines as [|x lines IH]; intros d Hn Hd.
  - cbn [fold_left]. rewrite app_nil_r.
    replace (length d - n)%nat with 0%nat by lia. reflexivity.
  - cbn [fold_left]. rewrite IH by auto using deque_append_length.
    unfold deque_append. destruct (Nat.leb_spec n (length d)) as [Hfull|Hroom].
    + destruct d as [|h t]; [cbn in Hfull; lia|].
      assert (n = S (length t)) as -> by (cbn in Hd, Hfull; lia).
      change (drop 1 (h :: t)) with t.
      rewrite <- app_assoc. cbn [app length]. rewrite !length_app. cbn [length].
      replace (length t + S (length lines) - S (length t))%nat
        with (length lines) by lia.
      replace (S (length t + S (length lines)) - S (length t))%nat
        with (S (length lines)) by lia.
      reflexivity.
    + rewrite <- !app_assoc. reflexivity.
Qed.

Lemma monitor_step_line (s : state) (p : process) (l : string) (rb : list string) :
  ffmpeg_proc s = Some p -> l <> "" ->
  monitor_step (quiet l) rb s = (Ret (Some (deque_append 50 rb l)), s).
Proof.
  intros Hp Hl. apply String.eqb_neq in Hl.
  unfold monitor_step, with_ffmpeg_proc, bind, get. rewrite Hp. cbn. rewrite Hl.
  reflexivity.
Qed.

(** The empty read, with the flag set when it returns. *)
Lemma monitor_step_eof_shutting_down (s : state) (p : process)
  (cs : list (Env * main_call)) (rb : list string) :
  ffmpeg_proc s = Some p -> shutting_down (run_calls cs s) = true ->
  monitor_step {| meanwhile := cs; line := "" |} rb s = (Ret None, run_calls cs s).
Proof.
  intros Hp Hflag.
  unfold monitor_step, with_ffmpeg_proc, bind, get, main_thread. rewrite Hp. cbn.
  rewrite Hflag. reflexivity.
Qed.

(** The empty read, with the flag unset when it returns. *)
Lemma monitor_step_eof_unexpected (s : state) (p p' : process)
  (cs : list (Env * main_call)) (rb : list string) (d : Z) :
  ffmpeg_proc s = Some p -> shutting_down (run_calls cs s) = false ->
  ffmpeg_proc (run_calls cs s) = Some p' -> exit_after (beh p') = Some d ->
  monitor_step {| meanwhile := cs; line := "" |} rb s
  = (Ret None,
     advance (run_calls cs s)
       [EvLog LvlError (stderr_msg rb);
        EvCaptureMessage (ffmpeg_quit_msg (returncode (beh p')))] 0 0).
Proof.
  intros Hp Hflag Hp' Hexit.
  unfold monitor_step, with_ffmpeg_proc, bind, get, wait, log, emit, main_thread.
  rewrite Hp. cbn. rewrite Hflag, Hp', Hexit. cbn.
  f_equal. apply state_eq; cbn; rewrite <- ?app_assoc; auto; lia.
Qed.

(** The empty read, with the flag unset, from a process that has closed its
    stderr and never exits: the thread stays in [wait()], nothing is
    reported. *)
Lemma monitor_step_eof_blocks (s : state) (p p' : process)
  (cs : list (Env * main_call)) (rb : list string) :
  ffmpeg_proc s = Some p -> shutting_down (run_calls cs s) = false ->
  ffmpeg_proc (run_calls cs s) = Some p' -> exit_after (beh p') = None ->
  monitor_step {| meanwhile := cs; line := "" |} rb s = (Hang, run_calls cs s).
Proof.
  intros Hp Hflag Hp' Hexit.
  unfold monitor_step, with_ffmpeg_proc, bind, get, wait, main_thread.
  rewrite Hp. cbn. rewrite Hflag, Hp', Hexit. reflexivity.
Qed.

(** The loop consumes the non-empty lines, feeding the ring buffer. *)
Lemma monitor_loop_lines (s : state) (p : process) (tail : list read) :
  ffmpeg_proc s = Some p ->
  forall (lines rb : list string),
    Forall (fun l => l <> "") lines ->
    monitor_loop (map quiet lines ++ tail) rb s
    = monitor_loop tail (fold_left (deque_append 50) lines rb) s.
Proof.
  intros Hp. induction lines as [|l lines IH]; intros rb Hlines; [reflexivity|].
  inversion Hlines as [|? ? Hl Hrest]; subst.
  cbn [map app monitor_loop fold_left]. unfold bind at 1.
  rewrite (monitor_step_line s p l rb Hp Hl). apply IH, Hrest.
Qed.

(** C1: the monitor reads the lines [lines] and then end-of-stream, the
    main thread making the calls [cs] while that last read is pending; [s'] is
    the streamer when the empty read returns.  With the shutdown flag set in
    [s'] the monitor returns and reports nothing.  With the flag unset it
    makes two reports and no more, then returns, whatever follows in the
    stream not being read: an error record, whose text is "STDERR:" and
    the last 50 lines read (all of them when there are fewer), each of
    which occurs in it; and a Sentry message, whose text gives the exit
    status and none of the lines. *)
Theorem monitor_ffmpeg_process_at_eof :
  forall (s : state) (p : process) (lines : list string)
         (cs : list (Env * main_call)) (rest : list read),
    ffmpeg_proc s = Some p ->
    Forall (fun l => l <> "") lines ->
    let s' := run_calls cs s in
    let r := monitor_ffmpeg_process
               (map quiet lines ++ {| meanwhile := cs; line := "" |} :: rest) s in
    let window := drop (length lines - 50) lines in
    let text := "STDERR:" +:+ nl +:+ String.concat nl window +:+ nl in
    (length window <= 50)%nat /\
    take (length lines - 50) lines ++ window = lines /\
    (forall l, In l window -> occurs_in l text) /\
    (shutting_down s' = true -> r = (Ret tt, s')) /\
    (shutting_down s' = false ->
     forall (p' : process) (d : Z),
       ffmpeg_proc s' = Some p' -> exit_after (beh p') = Some d ->
       r.1 = Ret tt /\
       new_events s' r.2
       = [EvLog LvlError text;
          EvCaptureMessage
            ("ffmpeg quit! This should not happen. Exit code: "
             +:+ string_of_Z (returncode (beh p')))] /\
       length (List.filter is_report (new_events s' r.2)) = 2%nat).
Proof.
  intros s p lines cs rest Hp Hlines s' r window text.
  assert (Hrun : r = (do x <- monitor_step {| meanwhile := cs; line := "" |} window >>
                      match x with
                      | None => ret tt
                      | Some rb => monitor_loop rest rb
                      end) s).
  { subst r. unfold monitor_ffmpeg_process.
    rewrite (monitor_loop_lines s p _ Hp lines [] Hlines).
    rewrite deque_append_fold by (cbn; lia). cbn [app monitor_loop].
    reflexivity. }
  repeat apply conj.
  - subst window. rewrite length_drop. lia.
  - apply take_drop.
  - intros l Hl. subst text.
    apply occurs_in_app_l, occurs_in_app_l, occurs_in_app_r, occurs_in_concat, Hl.
  - intros Hflag. rewrite Hrun. unfold bind.
    rewrite (monitor_step_eof_shutting_down s p cs window Hp Hflag). reflexivity.
  - intros Hflag p' d Hp' Hexit. rewrite Hrun. unfold bind.
    rewrite (monitor_step_eof_unexpected s p p' cs window d Hp Hflag Hp' Hexit).
    cbn [fst snd ret]. rewrite new_events_advance.
    split; [reflexivity|]. split; reflexivity.
Qed.

Lemma monitor_ffmpeg_process_at_eof_witness :
  new_events (sample_streamer false)
    (monitor_ffmpeg_process (map quiet sample_lines ++ [quiet ""; quiet "late"])
       (sample_streamer false)).2
  = [EvLog LvlError
       ("STDERR:" +:+ nl
        +:+ String.concat nl (replicate 49 "frame dropped" ++ ["fatal"]) +:+ nl);
     EvCaptureMessage "ffmpeg quit! This should not happen. Exit code: 1"].
Proof.
  destruct (monitor_ffmpeg_process_at_eof (sample_streamer false) sample_proc
              sample_lines [] [quiet "late"])
    as (_ & _ & _ & _ & H).
  - reflexivity.
  - repeat constructor; discriminate.
  - exact (proj1 (proj2 (H eq_refl sample_proc 3600 eq_refl eq_refl))).
Defined.

(** C1 fails as stated: when the stream ends with the flag unset the
    monitor makes two reports, not one: the error record with the lines,
    and a Sentry message with the exit status and none of the lines. *)
Lemma monitor_ffmpeg_process_reports_twice :
  shutting_down (sample_streamer false) = false /\
  List.filter is_report
    (new_events (sample_streamer false)
       (monitor_ffmpeg_process [quiet "a"; quiet "b"; quiet ""]
          (sample_streamer false)).2)
  = [EvLog LvlError (String.concat nl ["STDERR:"; "a"; "b"; ""]);
     EvCaptureMessage "ffmpeg quit! This should not happen. Exit code: 1"].
Proof. vm_compute. split; reflexivity. Qed.

(** [restore] is called while the monitor waits for the next line: the
    stream ends, the monitor returns, and the only events are those of
    [restore]. *)
Example monitor_ffmpeg_process_expected_shutdown :
  let E := sample_env [] [] 0 in
  monitor_ffmpeg_process
    (map quiet sample_lines ++ [{| meanwhile := [(E, CallRestore)]; line := "" |}])
    (sample_streamer false)
  = (Ret tt,
     {| ffmpeg_proc := None; shutting_down := true; FFMPEG := "ffmpeg";
        spawned := 1; captures := 1;
        events := [EvSetShuttingDown true; EvTerminate sample_proc] |}).
Proof. vm_compute. reflexivity. Qed.

(** Without [restore] the end of the stream is reported, once. *)
Example monitor_ffmpeg_process_unexpected_exit :
  monitor_ffmpeg_process [quiet "a"; quiet "b"; quiet ""] (sample_streamer false)
  = (Ret tt,
     {| ffmpeg_proc := Some sample_proc; shutting_down := false; FFMPEG := "ffmpeg";
        spawned := 1; captures := 1;
        events := [EvLog LvlError (stderr_msg ["a"; "b"]);
                   EvCaptureMessage (ffmpeg_quit_msg 1)] |}).
Proof. vm_compute. reflexivity. Qed.

(** ** Launching the streaming process *)



(** A process that survives the bounded wait: [start_ffmpeg] returns, the
    streamer holds the process and both threads are started. *)
Example start_ffmpeg_survives :
  let r := start_ffmpeg (sample_env [] ["-loglevel"] 0) "-re" module_loaded in
  r.1 = Ret tt /\ running_handle r.2 10 = true /\
  filter (fun e => bool_decide (thread_started e = true)) (events r.2)
  = match ffmpeg_proc r.2 with
    | Some p => [EvThreadStart (WatchProcessCpu p 80 20);
                 EvThreadStart MonitorFfmpegProcess]
    | None => []
    end.
Proof. vm_compute. repeat split. Qed.

(** ** Teardown *)

(** What [restore] does, in full. *)
Lemma restore_result (s : state) :
  restore s =
  (Ret tt,
   {| ffmpeg_proc := None; shutting_down := true; FFMPEG := FFMPEG s;
      spawned := spawned s; captures := captures s;
      events := events s ++ EvSetShuttingDown true :: terminate_events (ffmpeg_proc s) |}).
Proof.
  unfold restore, bind, set_shutting_down, get, set_ffmpeg_proc. cbn.
  destruct (ffmpeg_proc s) as [p|] eqn:Hp; cbn.
  - unfold try_except, with_ffmpeg_proc, terminate, bind, get, emit. cbn.
    destruct (terminate_error (beh p)); cbn; rewrite <- app_assoc; reflexivity.
  - reflexivity.
Qed.

(** C8: [restore] sets the shutdown flag first and asks the process to
    terminate afterwards; it leaves the streamer without a process; a second
    call changes nothing and asks for no termination; without a process it
    only sets the flag. *)
Theorem restore_sets_flag_before_terminate :
  forall s : state,
    let r := restore s in
    r.1 = Ret tt /\
    shutting_down r.2 = true /\
    ffmpeg_proc r.2 = None /\
    new_events s r.2 = EvSetShuttingDown true :: terminate_events (ffmpeg_proc s) /\
    (forall pre p post,
        new_events s r.2 = pre ++ EvTerminate p :: post ->
        In (EvSetShuttingDown true) pre) /\
    (let r' := restore r.2 in
     r'.1 = Ret tt /\ shutting_down r'.2 = shutting_down r.2 /\
     ffmpeg_proc r'.2 = ffmpeg_proc r.2 /\
     new_events r.2 r'.2 = [EvSetShuttingDown true]).
Proof.
  intros s r. subst r. cbv zeta. rewrite (restore_result s). cbn [fst snd].
  rewrite restore_result.
  cbn [fst snd ffmpeg_proc shutting_down events terminate_events].
  unfold new_events. cbn [events]. rewrite !drop_app_length.
  repeat apply conj; try reflexivity.
  intros pre p post Hsplit.
  destruct pre as [|e pre]; [discriminate|].
  injection Hsplit as <- _. left. reflexivity.
Qed.

(** C10: [restore] returns normally in every state, also when [terminate]
    raises, and in every case the streamer is left without a process. *)
Theorem restore_never_raises :
  forall s : state,
    (restore s).1 = Ret tt /\
    ffmpeg_proc (restore s).2 = None /\
    (forall p e,
        ffmpeg_proc s = Some p -> terminate_error (beh p) = Some e ->
        (with_ffmpeg_proc terminate s).1 = Raise e /\
        (restore s).1 = Ret tt /\ ffmpeg_proc (restore s).2 = None).
Proof.
  intros s. rewrite restore_result. repeat apply conj; try reflexivity.
  intros p e Hp He. repeat apply conj; try reflexivity.
  unfold with_ffmpeg_proc, terminate, bind, get, emit. cbn. rewrite Hp, He. reflexivity.
Qed.

(** A process whose [terminate] raises: [restore] still returns and releases it. *)
Example restore_swallows_terminate_error :
  let p := {| pid := 7; cmdline := ["ffmpeg"];
              beh := {| exit_after := Some 1; returncode := 1; stdout_data := "";
                        stderr_data := "";
                        terminate_error := Some (ExternalError "NoSuchProcess") |} |} in
  let s := {| ffmpeg_proc := Some p; shutting_down := false; FFMPEG := "ffmpeg";
              spawned := 8; captures := 0; events := [] |} in
  (with_ffmpeg_proc terminate s).1 = Raise (ExternalError "NoSuchProcess") /\
  restore s
  = (Ret tt,
     {| ffmpeg_proc := None; shutting_down := true; FFMPEG := "ffmpeg";
        spawned := 8; captures := 0;
        events := [EvSetShuttingDown true; EvTerminate p] |}).
Proof. vm_compute. split; reflexivity. Qed.

(** ** The life of the shutdown flag *)

Create HintDb flag.

Section KeepsFlag.
Context {A B : Type}.

Lemma keeps_flag_ret (a : A) : keeps_flag (ret a).
Proof. intros s; reflexivity. Qed.

Lemma keeps_flag_raise (e : exn) : keeps_flag (@raise A e).
Proof. intros s; reflexivity. Qed.

Lemma keeps_flag_hang : keeps_flag (@hang A).
Proof. intros s; reflexivity. Qed.

Lemma keeps_flag_get (f : state -> A) : keeps_flag (get f).
Proof. intros s; reflexivity. Qed.

Lemma keeps_flag_bind (m : M A) (k : A -> M B) :
  keeps_flag m -> (forall a, keeps_flag (k a)) -> keeps_flag (bind m k).
Proof.
  intros Hm Hk s. unfold bind. specialize (Hm s).
  destruct (m s) as [[a|e|] s']; cbn [snd] in *; [|assumption..].
  rewrite Hk. assumption.
Qed.

Lemma keeps_flag_try_except (body : M A) (sel : exn -> bool) (handler : exn -> M A) :
  keeps_flag body -> (forall e, keeps_flag (handler e)) ->
  keeps_flag (try_except body sel handler).
Proof.
  intros Hm Hk s. unfold try_except. specialize (Hm s).
  destruct (body s) as [[a|e|] s']; cbn [snd] in *; try assumption.
  destruct (sel e); [|assumption]. rewrite Hk. assumption.
Qed.

Lemma keeps_flag_with_ffmpeg_proc (f : process -> M A) :
  (forall p, keeps_flag (f p)) -> keeps_flag (with_ffmpeg_proc f).
Proof.
  intros Hf s. unfold with_ffmpeg_proc, bind, get.
  destruct (ffmpeg_proc s); [apply Hf|reflexivity].
Qed.
End KeepsFlag.

Lemma keeps_flag_emit (e : event) : keeps_flag (emit e).
Proof. intros s; reflexivity. Qed.

Lemma keeps_flag_log (lvl : loglevel) (msg : string) : keeps_flag (log lvl msg).
Proof. intros s; reflexivity. Qed.

Lemma keeps_flag_set_ffmpeg_proc (h : option process) : keeps_flag (set_ffmpeg_proc h).
Proof. intros s; reflexivity. Qed.

Lemma keeps_flag_set_FFMPEG (path : string) : keeps_flag (set_FFMPEG path).
Proof. intros s; reflexivity. Qed.

Lemma keeps_flag_Popen (E : Env) (cmd : list string) : keeps_flag (Popen E cmd).
Proof. intros s. unfold Popen. destruct (spawn E (spawned s) cmd); reflexivity. Qed.

Lemma keeps_flag_wait (p : process) (timeout : option Z) : keeps_flag (wait p timeout).
Proof.
  intros s. unfold wait.
  destruct timeout; [destruct (alive_after p _)|destruct (exit_after (beh p))];
    reflexivity.
Qed.

Lemma keeps_flag_communicate (p : process) (o e : bool) : keeps_flag (communicate p o e).
Proof. intros s; reflexivity. Qed.

Lemma keeps_flag_call_capture_jpeg (E : Env) : keeps_flag (call_capture_jpeg E).
Proof.
  intros s. unfold call_capture_jpeg. destruct (capture_jpeg E (captures s)); reflexivity.
Qed.

Lemma keeps_flag_cpu_watch_dog (p : process) (max interval : Z) :
  keeps_flag (cpu_watch_dog p max interval).
Proof. intros s; reflexivity. Qed.

#[local] Hint Resolve keeps_flag_ret keeps_flag_raise keeps_flag_hang keeps_flag_get
  keeps_flag_emit keeps_flag_log keeps_flag_set_ffmpeg_proc keeps_flag_set_FFMPEG
  keeps_flag_Popen keeps_flag_wait keeps_flag_communicate keeps_flag_call_capture_jpeg
  keeps_flag_cpu_watch_dog : flag.

(** Walks through a computation built from the primitives above. *)
Ltac keeps_flag_step :=
  first
    [ progress intros
    | solve [auto with flag]
    | match goal with
      | |- keeps_flag (bind _ _) => apply keeps_flag_bind
      | |- keeps_flag (try_except _ _ _) => apply keeps_flag_try_except
      | |- keeps_flag (with_ffmpeg_proc _) => apply keeps_flag_with_ffmpeg_proc
      | |- keeps_flag (if ?b then _ else _) => destruct b
      | |- keeps_flag (match ?x with _ => _ end) => destruct x
      end ].

Ltac keeps_flag_auto := repeat keeps_flag_step.

Lemma keeps_flag_terminate (p : process) : keeps_flag (terminate p).
Proof. unfold terminate. keeps_flag_auto. Qed.

Lemma keeps_flag_set_ffmpeg_if_needed (E : Env) : keeps_flag (set_ffmpeg_if_needed E).
Proof. unfold set_ffmpeg_if_needed. keeps_flag_auto. Qed.

Lemma keeps_flag_h264_encoder (E : Env) : keeps_flag (h264_encoder E).
Proof.
  unfold h264_encoder. generalize (test_video E) as tv. intros tv.
  induction encoder_candidates as [|encoder rest IH]; cbn [h264_encoder_loop];
    keeps_flag_auto.
Qed.

Lemma keeps_flag_on_exception_loop {A} (tries retries : nat) (target : M A) :
  keeps_flag target -> keeps_flag (on_exception_loop tries retries target).
Proof.
  intros Ht. revert tries.
  induction retries as [|k IH]; intros tries; cbn [on_exception_loop];
    keeps_flag_auto.
Qed.

Lemma keeps_flag_get_webcam_resolution (E : Env) : keeps_flag (get_webcam_resolution E).
Proof.
  unfold get_webcam_resolution, on_exception. apply keeps_flag_on_exception_loop.
  unfold get_webcam_resolution_body. keeps_flag_auto.
Qed.

Lemma keeps_flag_start_ffmpeg (E : Env) (ffmpeg_args : string) :
  keeps_flag (start_ffmpeg E ffmpeg_args).
Proof. unfold start_ffmpeg. keeps_flag_auto. Qed.

#[local] Hint Resolve keeps_flag_terminate keeps_flag_set_ffmpeg_if_needed
  keeps_flag_h264_encoder keeps_flag_get_webcam_resolution keeps_flag_start_ffmpeg
  : flag.

Lemma keeps_flag_ffmpeg_from_mjpeg (E : Env) : keeps_flag (ffmpeg_from_mjpeg E).
Proof. unfold ffmpeg_from_mjpeg. keeps_flag_auto. Qed.

#[local] Hint Resolve keeps_flag_ffmpeg_from_mjpeg : flag.

Lemma keeps_flag_video_pipeline (E : Env) : keeps_flag (video_pipeline E).
Proof. unfold video_pipeline. keeps_flag_auto. Qed.

Lemma keeps_flag_monitor_step (l : string) (rb : list string) :
  keeps_flag (monitor_step (quiet l) rb).
Proof.
  unfold monitor_step, quiet, line, meanwhile.
  assert (keeps_flag (main_thread [])) by (intros s; reflexivity).
  keeps_flag_auto.
Qed.

Lemma keeps_flag_monitor_ffmpeg_process (lines : list string) :
  keeps_flag (monitor_ffmpeg_process (map quiet lines)).
Proof.
  unfold monitor_ffmpeg_process. generalize (@nil string) as rb.
  induction lines as [|l rest IH]; intros rb; cbn [map monitor_loop];
    [apply keeps_flag_hang|].
  apply keeps_flag_bind; [apply keeps_flag_monitor_step|].
  intros [rb'|]; [apply IH|apply keeps_flag_ret].
Qed.

Lemma perform_keeps_flag (a : activity) (s : state) :
  is_restore a = false -> shutting_down (perform a s) = shutting_down s.
Proof.
  intros Ha. destruct a as [E c|lines]; cbn [perform].
  - destruct c; cbn [exec]; try discriminate.
    + apply keeps_flag_set_ffmpeg_if_needed.
    + apply keeps_flag_video_pipeline.
    + apply keeps_flag_ffmpeg_from_mjpeg.
    + apply keeps_flag_start_ffmpeg.
  - apply keeps_flag_monitor_ffmpeg_process.
Qed.

Lemma perform_restore (a : activity) (s : state) :
  is_restore a = true -> shutting_down (perform a s) = true.
Proof.
  destruct a as [E []|lines]; try discriminate. intros _.
  cbn [perform exec]. rewrite restore_result. reflexivity.
Qed.

Lemma history_flag (acts : list activity) :
  forall s : state,
    shutting_down (history acts s) = shutting_down s || existsb is_restore acts.
Proof.
  induction acts as [|a acts IH]; intros s; cbn [history fold_left existsb].
  - now rewrite orb_false_r.
  - fold (history acts (perform a s)). rewrite IH.
    destruct (is_restore a) eqn:Ha.
    + rewrite perform_restore by assumption. cbn. now rewrite orb_true_r.
    + rewrite perform_keeps_flag by assumption. reflexivity.
Qed.

(** C9: [__init__] leaves the flag false, whatever it was before, so it is
    false in a freshly constructed streamer; nothing but [restore] changes
    it, and [restore] sets it; once set it stays set; so after any history
    it is set exactly when [restore] was called. *)
Theorem shutting_down_lifecycle :
  (forall s : state,
      (WebcamStreamer_init s).1 = Ret tt /\
      shutting_down (WebcamStreamer_init s).2 = false) /\
  shutting_down initial_state = false /\
  (forall (a : activity) (s : state),
      is_restore a = false -> shutting_down (perform a s) = shutting_down s) /\
  (forall (E : Env) (s : state),
      shutting_down (perform (OnMainThread E CallRestore) s) = true) /\
  (forall (a : activity) (s : state),
      shutting_down s = true -> shutting_down (perform a s) = true) /\
  (forall acts : list activity,
      shutting_down (history acts initial_state) = existsb is_restore acts) /\
  (forall (acts : list activity) (a : activity),
      shutting_down (history acts initial_state) = true ->
      shutting_down (history (acts ++ [a]) initial_state) = true).
Proof.
  assert (Hstay : forall (a : activity) (s : state),
             shutting_down s = true -> shutting_down (perform a s) = true).
  { intros a s Hs. destruct (is_restore a) eqn:Ha.
    - apply perform_restore, Ha.
    - rewrite perform_keeps_flag by assumption. exact Hs. }
  repeat apply conj.
  - intros s. split; reflexivity.
  - reflexivity.
  - apply perform_keeps_flag.
  - intros E s. apply perform_restore. reflexivity.
  - exact Hstay.
  - intros acts. rewrite history_flag. reflexivity.
  - intros acts a Hs. unfold history in *. rewrite fold_left_app. cbn [fold_left].
    apply Hstay, Hs.
Qed.

(** A whole run on a host where ffmpeg dies at once: the pipeline reports
    the failure and the flag is still unset; [restore] then sets it. *)
Example video_pipeline_then_restore :
  let E := sample_env ["h264_omx"; "cat"] [] 0 in
  let s1 := run_calls [(E, CallVideoPipeline)] initial_state in
  let s2 := run_calls [(E, CallVideoPipeline); (E, CallRestore)] initial_state in
  shutting_down s1 = false /\ shutting_down s2 = true /\ ffmpeg_proc s2 = None /\
  existsb (fun e => match e with EvCaptureException _ => true | _ => false end)
    (events s1) = true.
Proof. vm_compute. repeat split. Qed.

(** ** The CPU watchdog *)

Lemma watch_process_cpu_sampled (smp : cpu_sample) (rest : list cpu_sample)
  (max interval : Z) (s : state) :
  sampled smp ->
  watch_process_cpu (smp :: rest) max interval s
  = watch_process_cpu rest max interval (advance s (watch_events max smp) 0 0).
Proof.
  intros [Hrun (cpu_pct & Hread)]. cbn [watch_process_cpu].
  unfold watch_events. rewrite Hrun, Hread. cbn [negb].
  unfold bind. destruct (exceeds max cpu_pct); cbn; f_equal;
    apply state_eq; cbn; rewrite <- ?app_assoc; auto; lia.
Qed.

Lemma watch_events_reports (max : Z) (samples : list cpu_sample) :
  length (filter (fun e => is_report e = true)
            (concat (map (watch_events max) samples)))
  = length (filter (fun smp => hot max smp = true) samples) /\
  existsb is_terminate (concat (map (watch_events max) samples)) = false.
Proof.
  induction samples as [|smp samples [IHn IHt]]; [split; reflexivity|].
  cbn [map concat]. rewrite filter_app, length_app, existsb_app, IHn, IHt.
  rewrite filter_cons. unfold watch_events, hot.
  destruct (reading smp) as [cpu_pct|e]; [destruct (exceeds max cpu_pct)|];
    split; reflexivity.
Qed.

(** X1: the watchdog polls until the process is seen not to be running, and
    then returns.  For every sample above [max] it posts one warning, for
    the others none, and it sleeps after each sample; it never asks the
    process to terminate and leaves the streamer as it is. *)
Theorem watch_process_cpu_until_exit :
  forall (samples : list cpu_sample) (last : cpu_sample) (rest : list cpu_sample)
         (max interval : Z) (s : state),
    Forall sampled samples ->
    is_running last = false ->
    let r := watch_process_cpu (samples ++ last :: rest) max interval s in
    r = (Ret tt, advance s (concat (map (watch_events max) samples)) 0 0) /\
    length (filter (fun e => is_report e = true) (new_events s r.2))
    = length (filter (fun smp => hot max smp = true) samples) /\
    existsb is_terminate (new_events s r.2) = false.
Proof.
  intros samples last rest max interval s Hs Hlast r.
  assert (Hr : r = (Ret tt, advance s (concat (map (watch_events max) samples)) 0 0)).
  { subst r. revert s. induction Hs as [|smp samples Hsmp _ IH]; intros s.
    - cbn [app watch_process_cpu map concat]. rewrite Hlast, advance_nil. reflexivity.
    - cbn [app map concat]. rewrite watch_process_cpu_sampled by assumption.
      rewrite IH, advance_advance. reflexivity. }
  rewrite Hr. cbn [snd]. rewrite new_events_advance.
  split; [reflexivity|]. apply watch_events_reports.
Qed.

Lemma watch_process_cpu_until_exit_witness :
  watch_process_cpu
    [ {| is_running := true; reading := CpuPercent (35 # 1) |};
      {| is_running := true; reading := CpuPercent (80 # 1) |};
      {| is_running := true; reading := CpuPercent (161 # 2) |};
      {| is_running := false; reading := CpuRaises (ExternalError "NoSuchProcess") |} ]
    80 20 (sample_streamer false)
  = (Ret tt, advance (sample_streamer false)
               [EvSleep; EvSleep; cpu_warning; EvSleep] 0 0).
Proof.
  refine (proj1 (watch_process_cpu_until_exit
                   [ {| is_running := true; reading := CpuPercent (35 # 1) |};
                     {| is_running := true; reading := CpuPercent (80 # 1) |};
                     {| is_running := true; reading := CpuPercent (161 # 2) |} ]
                   {| is_running := false;
                      reading := CpuRaises (ExternalError "NoSuchProcess") |}
                   [] 80 20 (sample_streamer false) _ _)).
  - repeat constructor; eexists; reflexivity.
  - reflexivity.
Defined.

(** While the process runs and the samples run out, the watchdog goes on:
    it does not return. *)
Lemma watch_process_cpu_keeps_polling (samples : list cpu_sample) (max interval : Z)
  (s : state) :
  Forall sampled samples ->
  (watch_process_cpu samples max interval s).1 = Hang.
Proof.
  intros Hs. revert s. induction Hs as [|smp samples Hsmp _ IH]; intros s.
  - reflexivity.
  - rewrite watch_process_cpu_sampled by assumption. apply IH.
Qed.

(** ** What each function leaves alone *)

Section Keeps.
Context {A B C : Type} (f : state -> C).

Lemma keeps_bind (m : M A) (k : A -> M B) :
  keeps f m -> (forall a, keeps f (k a)) -> keeps f (bind m k).
Proof.
  intros Hm Hk s. unfold bind. specialize (Hm s).
  destruct (m s) as [[a|e|] s']; cbn [snd] in *; [|assumption..].
  rewrite Hk. assumption.
Qed.

Lemma keeps_try_except (body : M A) (sel : exn -> bool) (handler : exn -> M A) :
  keeps f body -> (forall e, keeps f (handler e)) ->
  keeps f (try_except body sel handler).
Proof.
  intros Hm Hk s. unfold try_except. specialize (Hm s).
  destruct (body s) as [[a|e|] s']; cbn [snd] in *; try assumption.
  destruct (sel e); [|assumption]. rewrite Hk. assumption.
Qed.

Lemma keeps_with_ffmpeg_proc (g : process -> M A) :
  (forall p, keeps f (g p)) -> keeps f (with_ffmpeg_proc g).
Proof.
  intros Hg s. unfold with_ffmpeg_proc, bind, get.
  destruct (ffmpeg_proc s); [apply Hg|reflexivity].
Qed.
End Keeps.

(** A primitive of the monad that does not write the part looked at. *)
Ltac keeps_leaf :=
  solve
    [ let s := fresh "s" in
      intros s;
      unfold ret, raise, hang, get, log, emit, set_ffmpeg_proc, set_FFMPEG,
        set_shutting_down, Popen, wait, communicate, call_capture_jpeg,
        cpu_watch_dog, main_thread;
      repeat match goal with
             | |- context [match ?x with _ => _ end] => destruct x
             end;
      reflexivity ].

Ltac keeps_step :=
  first
    [ progress intros
    | assumption
    | match goal with
      | |- keeps _ (bind _ _) => apply keeps_bind
      | |- keeps _ (try_except _ _ _) => apply keeps_try_except
      | |- keeps _ (with_ffmpeg_proc _) => apply keeps_with_ffmpeg_proc
      | |- keeps _ (if ?b then _ else _) => destruct b
      | |- keeps _ (match ?x with _ => _ end) => destruct x
      end
    | solve [auto with keeps]
    | keeps_leaf ].

Ltac keeps_auto := repeat keeps_step.

Create HintDb keeps.

Lemma keeps_terminate {C} (f : state -> C) (p : process) :
  (forall s e, f (emit e s).2 = f s) -> keeps f (terminate p).
Proof.
  intros Hf. unfold terminate. apply keeps_bind; [intros s; apply Hf|].
  intros _. destruct (terminate_error (beh p)); intros s; reflexivity.
Qed.

(** The encoder probe writes neither the streamer nor [FFMPEG], and makes
    no capture. *)
Lemma keeps_h264_encoder_loop {C} (f : state -> C) (E : Env) (tv : string)
  (encoders : list string) :
  (forall s evs n, f (advance s evs n 0) = f s) ->
  keeps f (h264_encoder_loop E tv encoders).
Proof.
  intros Hf. induction encoders as [|encoder rest IH]; intros s.
  - reflexivity.
  - rewrite h264_encoder_loop_cons.
    destruct (spawn E (spawned s) _) as [b|]; [|apply Hf].
    cbv zeta. destruct (exit_after b); [|apply Hf].
    destruct (returncode b =? 0); [apply Hf|]. rewrite IH. apply Hf.
Qed.

Lemma keeps_on_exception_loop {A C} (f : state -> C) (tries retries : nat)
  (target : M A) :
  (forall s e, f (emit e s).2 = f s) ->
  keeps f target -> keeps f (on_exception_loop tries retries target).
Proof.
  intros Hf Ht. revert tries.
  induction retries as [|k IH]; intros tries; cbn [on_exception_loop].
  - apply keeps_try_except; [assumption|]. intros e.
    apply keeps_bind; [intros s; apply Hf|]. intros _ s. reflexivity.
  - apply keeps_try_except; [assumption|]. intros e.
    apply keeps_bind; [intros s; apply Hf|]. intros _.
    apply keeps_bind; [intros s; apply Hf|]. intros _. apply IH.
Qed.

Lemma keeps_monitor_loop_quiet {C} (f : state -> C) (lines rb : list string) :
  (forall s e, f (emit e s).2 = f s) ->
  keeps f (monitor_loop (map quiet lines) rb).
Proof.
  intros Hf. revert rb. induction lines as [|l rest IH]; intros rb; cbn [map monitor_loop].
  - intros s. reflexivity.
  - apply keeps_bind.
    + unfold monitor_step, quiet, line, meanwhile.
      apply keeps_with_ffmpeg_proc. intros _.
      apply keeps_bind; [intros s; reflexivity|]. intros _.
      destruct (String.eqb l ""); [|intros s; reflexivity].
      apply keeps_bind; [intros s; reflexivity|]. intros [|]; [intros s; reflexivity|].
      apply keeps_bind.
      { apply keeps_with_ffmpeg_proc. intros p s. unfold wait.
        destruct (exit_after (beh p)); reflexivity. }
      intros rc. apply keeps_bind; [intros s; apply Hf|]. intros _.
      apply keeps_bind; [intros s; apply Hf|]. intros _ s. reflexivity.
    + intros [rb'|]; [apply IH|intros s; reflexivity].
Qed.

Lemma keeps_watch_process_cpu {C} (f : state -> C) (samples : list cpu_sample)
  (max interval : Z) :
  (forall s e, f (emit e s).2 = f s) ->
  keeps f (watch_process_cpu samples max interval).
Proof.
  intros Hf. induction samples as [|smp rest IH]; cbn [watch_process_cpu].
  - intros s. reflexivity.
  - destruct (negb (is_running smp)); [intros s; reflexivity|].
    destruct (reading smp) as [cpu_pct|e]; [|intros s; reflexivity].
    apply keeps_bind.
    { destruct (exceeds max cpu_pct); intros s; [apply Hf|reflexivity]. }
    intros _. apply keeps_bind; [intros s; apply Hf|]. intros _. exact IH.
Qed.

Lemma keeps_get_webcam_resolution {C} (f : state -> C) (E : Env) :
  (forall s e, f (emit e s).2 = f s) ->
  (forall s, f (call_capture_jpeg E s).2 = f s) ->
  keeps f (get_webcam_resolution E).
Proof.
  intros Hf Hc. unfold get_webcam_resolution, on_exception.
  apply keeps_on_exception_loop; [exact Hf|].
  unfold get_webcam_resolution_body. apply keeps_bind; [exact Hc|].
  intros [data|]; [|intros s; reflexivity].
  destruct (String.eqb data ""); [intros s; reflexivity|].
  destruct (get_image_info E data); intros s; reflexivity.
Qed.

Lemma set_ffmpeg_if_needed_keeps_proc (E : Env) :
  keeps ffmpeg_proc (set_ffmpeg_if_needed E).
Proof. unfold set_ffmpeg_if_needed; keeps_auto. Qed.

Lemma set_ffmpeg_if_needed_keeps_captures (E : Env) :
  keeps captures (set_ffmpeg_if_needed E).
Proof. unfold set_ffmpeg_if_needed; keeps_auto. Qed.

Lemma h264_encoder_keeps_proc (E : Env) : keeps ffmpeg_proc (h264_encoder E).
Proof. unfold h264_encoder; apply keeps_h264_encoder_loop; reflexivity. Qed.

Lemma h264_encoder_keeps_captures (E : Env) : keeps captures (h264_encoder E).
Proof. unfold h264_encoder; apply keeps_h264_encoder_loop; intros; cbn; lia. Qed.

Lemma get_webcam_resolution_keeps_proc (E : Env) :
  keeps ffmpeg_proc (get_webcam_resolution E).
Proof.
  apply keeps_get_webcam_resolution; [reflexivity|].
  intros s. unfold call_capture_jpeg. destruct (capture_jpeg E (captures s)); reflexivity.
Qed.

(** X2: the two probes and the choice of the ffmpeg binary leave the streamer
    object alone: its process and its shutdown flag are as before.  The
    encoder probe and the resolution probe also leave [FFMPEG] alone; only
    the resolution probe captures frames and only the other two start
    processes. *)
Theorem probes_leave_streamer_alone :
  forall E : Env,
    (keeps ffmpeg_proc (set_ffmpeg_if_needed E) /\
     keeps shutting_down (set_ffmpeg_if_needed E) /\
     keeps captures (set_ffmpeg_if_needed E)) /\
    (keeps ffmpeg_proc (h264_encoder E) /\
     keeps shutting_down (h264_encoder E) /\
     keeps FFMPEG (h264_encoder E) /\
     keeps captures (h264_encoder E)) /\
    (keeps ffmpeg_proc (get_webcam_resolution E) /\
     keeps shutting_down (get_webcam_resolution E) /\
     keeps FFMPEG (get_webcam_resolution E) /\
     keeps spawned (get_webcam_resolution E)).
Proof.
  intros E. repeat apply conj.
  1-3: (unfold set_ffmpeg_if_needed; keeps_auto).
  1-4: (unfold h264_encoder; apply keeps_h264_encoder_loop;
        intros; cbn; first [reflexivity | lia]).
  1-4: (unfold get_webcam_resolution, on_exception;
        apply keeps_on_exception_loop; [reflexivity|];
        unfold get_webcam_resolution_body; keeps_auto).
Qed.

(** X3: the threads only watch: neither the monitor (while the main thread is
    idle) nor the CPU watchdog writes the streamer's process, its flag or
    [FFMPEG], starts a process or captures a frame. *)
Theorem threads_only_watch :
  forall (lines : list string) (samples : list cpu_sample) (max interval : Z),
    (keeps ffmpeg_proc (monitor_ffmpeg_process (map quiet lines)) /\
     keeps shutting_down (monitor_ffmpeg_process (map quiet lines)) /\
     keeps FFMPEG (monitor_ffmpeg_process (map quiet lines)) /\
     keeps spawned (monitor_ffmpeg_process (map quiet lines)) /\
     keeps captures (monitor_ffmpeg_process (map quiet lines))) /\
    (keeps ffmpeg_proc (watch_process_cpu samples max interval) /\
     keeps shutting_down (watch_process_cpu samples max interval) /\
     keeps FFMPEG (watch_process_cpu samples max interval) /\
     keeps spawned (watch_process_cpu samples max interval) /\
     keeps captures (watch_process_cpu samples max interval)).
Proof.
  intros lines samples max interval. repeat apply conj.
  1-5: (unfold monitor_ffmpeg_process; apply keeps_monitor_loop_quiet; reflexivity).
  1-5: (apply keeps_watch_process_cpu; reflexivity).
Qed.

(** ** What each function never does *)

Section Never.
Context {A B : Type} (P : event -> bool).

Lemma never_bind (m : M A) (k : A -> M B) :
  never P m -> (forall a, never P (k a)) -> never P (bind m k).
Proof.
  intros Hm Hk s. unfold bind. destruct (Hm s) as (evs1 & He1 & Hp1).
  destruct (m s) as [[a|e|] s1]; cbn [snd] in *; [|exists evs1; auto..].
  destruct (Hk a s1) as (evs2 & He2 & Hp2).
  exists (evs1 ++ evs2). rewrite He2, He1, <- app_assoc, existsb_app, Hp1, Hp2. auto.
Qed.

Lemma never_try_except (body : M A) (sel : exn -> bool) (handler : exn -> M A) :
  never P body -> (forall e, never P (handler e)) ->
  never P (try_except body sel handler).
Proof.
  intros Hm Hk s. unfold try_except. destruct (Hm s) as (evs1 & He1 & Hp1).
  destruct (body s) as [[a|e|] s1]; cbn [snd] in *; try (exists evs1; auto; fail).
  destruct (sel e); [|exists evs1; auto].
  destruct (Hk e s1) as (evs2 & He2 & Hp2).
  exists (evs1 ++ evs2). rewrite He2, He1, <- app_assoc, existsb_app, Hp1, Hp2. auto.
Qed.

Lemma never_with_ffmpeg_proc (g : process -> M A) :
  (forall p, never P (g p)) -> never P (with_ffmpeg_proc g).
Proof.
  intros Hg s. unfold with_ffmpeg_proc, bind, get. cbn.
  destruct (ffmpeg_proc s); [apply Hg|].
  exists []. cbn. rewrite app_nil_r. auto.
Qed.

Lemma never_silent (m : M A) :
  (forall s, events (m s).2 = events s) -> never P m.
Proof. intros Hm s. exists []. rewrite Hm, app_nil_r. auto. Qed.

Lemma never_emit (e : event) : P e = false -> never P (emit e).
Proof. intros He s. exists [e]. cbn. rewrite He. auto. Qed.
End Never.

(** A primitive of the monad that emits nothing in [P]. *)
Ltac never_leaf :=
  first
    [ solve [ apply never_emit; reflexivity ]
    | solve [ apply never_silent;
              let s := fresh "s" in
              intros s;
              unfold ret, raise, hang, get, set_ffmpeg_proc, set_FFMPEG, wait,
                communicate, call_capture_jpeg, main_thread;
              repeat match goal with
                     | |- context [match ?x with _ => _ end] => destruct x
                     end;
              reflexivity ] ].

Ltac never_step :=
  first
    [ progress intros
    | assumption
    | match goal with
      | |- never _ (bind _ _) => apply never_bind
      | |- never _ (try_except _ _ _) => apply never_try_except
      | |- never _ (with_ffmpeg_proc _) => apply never_with_ffmpeg_proc
      | |- never _ (log _ _) => unfold log
      | |- never _ (cpu_watch_dog _ _ _) => unfold cpu_watch_dog
      | |- never _ (if ?b then _ else _) => destruct b
      | |- never _ (match ?x with _ => _ end) => destruct x
      end
    | never_leaf ].

Ltac never_auto := repeat never_step.

Lemma never_Popen (P : event -> bool) (E : Env) (cmd : list string) :
  (forall p, P (EvPopen p) = false) -> never P (Popen E cmd).
Proof.
  intros HP s. unfold Popen. destruct (spawn E (spawned s) cmd) as [b|].
  - eexists [_]. cbn. rewrite HP. auto.
  - exists []. cbn. rewrite app_nil_r. auto.
Qed.

Lemma never_set_ffmpeg_if_needed (P : event -> bool) (E : Env) :
  (forall p, P (EvPopen p) = false) -> never P (set_ffmpeg_if_needed E).
Proof.
  intros HP. unfold set_ffmpeg_if_needed.
  apply never_bind; [apply never_Popen, HP|]. never_auto.
Qed.

Lemma never_h264_encoder (P : event -> bool) (E : Env) :
  (forall p, P (EvPopen p) = false) -> (forall msg, P (EvLog LvlDebug msg) = false) ->
  never P (h264_encoder E).
Proof.
  intros HP HL. unfold h264_encoder. generalize (test_video E) as tv. intros tv.
  induction encoder_candidates as [|encoder rest IH]; cbn [h264_encoder_loop].
  - never_auto.
  - apply never_bind; [never_auto|]. intros ffmpeg.
    apply never_bind; [apply never_emit, HL|]. intros _.
    apply never_bind; [apply never_Popen, HP|]. never_auto.
Qed.

Lemma never_on_exception_loop {A} (P : event -> bool) (tries retries : nat)
  (target : M A) :
  P EvSleep = false -> (forall lvl n e, P (EvBackoffLog lvl n e) = false) ->
  never P target -> never P (on_exception_loop tries retries target).
Proof.
  intros HS HB Ht. revert tries.
  induction retries as [|k IH]; intros tries; cbn [on_exception_loop];
    (apply never_try_except; [exact Ht|]); intros e.
  - apply never_bind; [apply never_emit, HB|]. never_auto.
  - apply never_bind; [apply never_emit, HB|]. intros _.
    apply never_bind; [apply never_emit, HS|]. intros _. apply IH.
Qed.

Lemma never_get_webcam_resolution (P : event -> bool) (E : Env) :
  P EvSleep = false -> (forall lvl n e, P (EvBackoffLog lvl n e) = false) ->
  never P (get_webcam_resolution E).
Proof.
  intros HS HB. unfold get_webcam_resolution, on_exception.
  apply never_on_exception_loop; [exact HS|exact HB|].
  unfold get_webcam_resolution_body. never_auto.
Qed.

Lemma never_start_ffmpeg (P : event -> bool) (E : Env) (ffmpeg_args : string) :
  (forall p, P (EvPopen p) = false) -> (forall lvl msg, P (EvLog lvl msg) = false) ->
  (forall p v, P (EvNice p v) = false) -> (forall t, P (EvThreadStart t) = false) ->
  never P (start_ffmpeg E ffmpeg_args).
Proof.
  intros HP HL HN HT. unfold start_ffmpeg.
  apply never_bind; [never_auto|]. intros ffmpeg.
  apply never_bind; [apply never_emit, HL|]. intros _.
  apply never_bind; [apply never_Popen, HP|]. intros p.
  apply never_bind; [never_auto|]. intros _.
  apply never_bind; [apply never_with_ffmpeg_proc; intros q; apply never_emit, HN|].
  intros _. apply never_bind.
  { apply never_try_except; [|never_auto].
    apply never_bind; [never_auto|]. intros rc.
    apply never_bind; [never_auto|]. intros out.
    apply never_bind; [apply never_emit, HL|]. never_auto. }
  intros _. apply never_bind.
  { apply never_with_ffmpeg_proc. intros q. apply never_emit, HT. }
  intros _. apply never_emit, HT.
Qed.

Lemma never_ffmpeg_from_mjpeg (P : event -> bool) (E : Env) :
  (forall p, P (EvPopen p) = false) -> (forall lvl msg, P (EvLog lvl msg) = false) ->
  (forall p v, P (EvNice p v) = false) -> (forall t, P (EvThreadStart t) = false) ->
  P EvSleep = false -> (forall lvl n e, P (EvBackoffLog lvl n e) = false) ->
  never P (ffmpeg_from_mjpeg E).
Proof.
  intros HP HL HN HT HS HB. unfold ffmpeg_from_mjpeg.
  apply never_bind; [apply never_set_ffmpeg_if_needed, HP|]. intros _.
  apply never_bind; [apply never_h264_encoder; auto|]. intros encoder.
  apply never_bind; [apply never_get_webcam_resolution; assumption|].
  intros [[fmt w] h].
  destruct (negb (truthy (stream_url E))); [never_auto|].
  destruct (stream_policy w h (linked_printer E)) as [fps bitrate].
  apply never_start_ffmpeg; assumption.
Qed.

Lemma never_video_pipeline (P : event -> bool) (E : Env) :
  (forall p, P (EvPopen p) = false) -> (forall lvl msg, P (EvLog lvl msg) = false) ->
  (forall p v, P (EvNice p v) = false) -> (forall t, P (EvThreadStart t) = false) ->
  P EvSleep = false -> (forall lvl n e, P (EvBackoffLog lvl n e) = false) ->
  (forall e, P (EvCaptureException e) = false) ->
  (forall a b c d, P (EvPostPrinterEvent a b c d) = false) ->
  never P (video_pipeline E).
Proof.
  intros HP HL HN HT HS HB HC HE. unfold video_pipeline.
  destruct (negb (truthy (pi_version E))); [apply never_emit, HL|].
  apply never_try_except; [apply never_ffmpeg_from_mjpeg; assumption|].
  intros e. apply never_bind; [apply never_emit, HC|]. intros _. apply never_emit, HE.
Qed.

Lemma never_monitor_quiet (P : event -> bool) (lines : list string) :
  (forall lvl msg, P (EvLog lvl msg) = false) ->
  (forall msg, P (EvCaptureMessage msg) = false) ->
  never P (monitor_ffmpeg_process (map quiet lines)).
Proof.
  intros HL HC. unfold monitor_ffmpeg_process. generalize (@nil string) as rb.
  induction lines as [|l rest IH]; intros rb; cbn [map monitor_loop]; [never_auto|].
  apply never_bind; [|intros [rb'|]; [apply IH|never_auto]].
  unfold monitor_step, quiet, line, meanwhile.
  apply never_with_ffmpeg_proc. intros _.
  apply never_bind; [never_auto|]. intros _.
  destruct (String.eqb l ""); [|never_auto].
  apply never_bind; [never_auto|]. intros [|]; [never_auto|].
  apply never_bind; [never_auto|]. intros rc.
  apply never_bind; [apply never_emit, HL|]. intros _.
  apply never_bind; [apply never_emit, HC|]. never_auto.
Qed.

Lemma never_restore (P : event -> bool) :
  (forall b, P (EvSetShuttingDown b) = false) -> (forall p, P (EvTerminate p) = false) ->
  never P restore.
Proof.
  intros HF HT s. rewrite restore_result. cbn [snd events].
  eexists. split; [reflexivity|]. cbn [existsb]. rewrite HF.
  destruct (ffmpeg_proc s); cbn; rewrite ?HT; reflexivity.
Qed.

(** X4: nothing but [restore] asks a process to terminate: not the pipeline
    when a probe or the launch fails, not [start_ffmpeg] when the streamer
    already holds a process or when the new one exits at once, not the
    monitor when it sees the stream end. *)
Theorem only_restore_terminates :
  forall (E : Env) (ffmpeg_args : string) (lines : list string),
    never is_terminate (set_ffmpeg_if_needed E) /\
    never is_terminate (h264_encoder E) /\
    never is_terminate (get_webcam_resolution E) /\
    never is_terminate (start_ffmpeg E ffmpeg_args) /\
    never is_terminate (ffmpeg_from_mjpeg E) /\
    never is_terminate (video_pipeline E) /\
    never is_terminate (monitor_ffmpeg_process (map quiet lines)).
Proof.
  intros E ffmpeg_args lines. repeat apply conj.
  - apply never_set_ffmpeg_if_needed; reflexivity.
  - apply never_h264_encoder; reflexivity.
  - apply never_get_webcam_resolution; reflexivity.
  - apply never_start_ffmpeg; reflexivity.
  - apply never_ffmpeg_from_mjpeg; reflexivity.
  - apply never_video_pipeline; reflexivity.
  - apply never_monitor_quiet; reflexivity.
Qed.

(** X5: the choice of the binary and the encoder probe report nothing
    themselves (no error record, nothing to Sentry or to the server) and
    start no thread.  The resolution probe does nothing but sleep and let
    its retry decorator write its records: nothing on the module's logger,
    nothing to Sentry or to the server, no thread; its one report is the
    "Giving up" record of the decorator, written at the twentieth try,
    exactly when the probe raises and with the exception it raises.
    [restore] reports nothing, also when [terminate] raises, and starts
    neither a process nor a thread. *)
Theorem probes_and_restore_report_nothing :
  forall E : Env,
    never (fun e => is_report e || thread_started e) (set_ffmpeg_if_needed E) /\
    never (fun e => is_report e || thread_started e) (h264_encoder E) /\
    never (fun e => negb (is_sleep e || is_backoff e)) (get_webcam_resolution E) /\
    (forall s : state,
        List.filter is_report (new_events s (get_webcam_resolution E s).2)
        = match (get_webcam_resolution E s).1 with
          | Raise e => [EvBackoffLog LvlError 20 e]
          | _ => []
          end) /\
    never (fun e => is_report e || thread_started e || is_popen e) restore.
Proof.
  intros E. repeat apply conj.
  - apply never_set_ffmpeg_if_needed; reflexivity.
  - apply never_h264_encoder; reflexivity.
  - apply never_get_webcam_resolution; reflexivity.
  - intros s. unfold get_webcam_resolution, on_exception. cbn [Nat.pred].
    destruct (on_exception_loop_outcome E 19 1 s)
      as (n & Hn & _ & [(info & _ & ->)|(_ & _ & ->)]); cbn [fst snd];
      rewrite new_events_advance, ?List.filter_app, filter_report_backoff_events;
      reflexivity.
  - apply never_restore; reflexivity.
Qed.

(** ** Launching the streaming process, all cases *)

Lemma start_ffmpeg_outcome (E : Env) (ffmpeg_args : string) (s : state) :
  start_ffmpeg E ffmpeg_args s =
  let cmd := stream_cmd E (FFMPEG s) ffmpeg_args in
  match spawn E (spawned s) (split_on " " cmd) with
  | None => (Raise OSError, advance s [EvLog LvlDebug ("Popen: " +:+ cmd)] 0 0)
  | Some b =>
      let p := stream_proc E s ffmpeg_args b in
      if alive_after p 10
      then (Ret tt,
            holding (Some p)
              (advance s [EvLog LvlDebug ("Popen: " +:+ cmd); EvPopen p; EvNice p 10;
                          EvThreadStart (WatchProcessCpu p 80 20);
                          EvThreadStart MonitorFfmpegProcess] 1 0))
      else (Raise (Exception (ffmpeg_quit_msg (returncode b))),
            holding (Some p)
              (advance s [EvLog LvlDebug ("Popen: " +:+ cmd); EvPopen p; EvNice p 10;
                          EvLog LvlError (startup_msg E None (Some (stderr_data b)))]
                 1 0))
  end.
Proof.
  cbv zeta. unfold start_ffmpeg, bind, get, log, emit, Popen. cbn.
  destruct (spawn E (spawned s) _) as [b|] eqn:Hspawn.
  - fold (stream_proc E s ffmpeg_args b).
    unfold set_ffmpeg_proc, with_ffmpeg_proc, try_except, bind, get, emit, wait,
      cpu_watch_dog. cbn.
    destruct (alive_after (stream_proc E s ffmpeg_args b) 10); cbn;
      f_equal; apply state_eq; cbn; rewrite <- ?app_assoc; auto; lia.
  - f_equal. apply state_eq; cbn; auto; lia.
Qed.

(** X6: when the process started by [start_ffmpeg] is still running after the
    10 seconds of the bounded wait, [start_ffmpeg] returns; the streamer
    holds that process; the process was given niceness 10; the CPU watchdog
    (limit 80, every 20 seconds) and the monitor were started, in this
    order and after the wait; no error was logged. *)
Theorem start_ffmpeg_survives_startup :
  forall (E : Env) (s : state) (ffmpeg_args : string) (b : behaviour),
    let cmd := stream_cmd E (FFMPEG s) ffmpeg_args in
    let p := stream_proc E s ffmpeg_args b in
    spawn E (spawned s) (split_on " " cmd) = Some b ->
    alive_after p 10 = true ->
    let r := start_ffmpeg E ffmpeg_args s in
    r.1 = Ret tt /\
    ffmpeg_proc r.2 = Some p /\
    new_events s r.2
    = [EvLog LvlDebug ("Popen: " +:+ cmd); EvPopen p; EvNice p 10;
       EvThreadStart (WatchProcessCpu p 80 20); EvThreadStart MonitorFfmpegProcess] /\
    existsb is_report (new_events s r.2) = false /\
    spawned r.2 = S (spawned s).
Proof.
  intros E s ffmpeg_args b cmd p Hspawn Halive r.
  subst r. rewrite start_ffmpeg_outcome. cbv zeta. fold cmd. rewrite Hspawn.
  fold p. rewrite Halive. cbn [fst snd ffmpeg_proc holding spawned advance].
  unfold new_events. cbn [events holding advance]. rewrite drop_app_length.
  repeat apply conj; try reflexivity. lia.
Qed.

Lemma start_ffmpeg_survives_startup_witness :
  (start_ffmpeg (sample_env [] ["-loglevel"] 0) "-re" module_loaded).1 = Ret tt /\
  spawned (start_ffmpeg (sample_env [] ["-loglevel"] 0) "-re" module_loaded).2 = 1%nat.
Proof.
  destruct (start_ffmpeg_survives_startup (sample_env [] ["-loglevel"] 0) module_loaded
              "-re" (sample_behaviour None 0))
    as (Hret & _ & _ & _ & Hspawned).
  - reflexivity.
  - reflexivity.
  - split; [exact Hret | exact Hspawned].
Defined.

(** X7: when [Popen] cannot start the program, [start_ffmpeg] raises that
    error: the streamer keeps the process it had (or none), nothing is
    logged but the debug line, and no thread is started. *)
Theorem start_ffmpeg_popen_fails :
  forall (E : Env) (s : state) (ffmpeg_args : string),
    let cmd := stream_cmd E (FFMPEG s) ffmpeg_args in
    spawn E (spawned s) (split_on " " cmd) = None ->
    start_ffmpeg E ffmpeg_args s
    = (Raise OSError, advance s [EvLog LvlDebug ("Popen: " +:+ cmd)] 0 0).
Proof.
  intros E s ffmpeg_args cmd Hspawn.
  rewrite start_ffmpeg_outcome. cbv zeta. fold cmd. rewrite Hspawn. reflexivity.
Qed.

Lemma start_ffmpeg_popen_fails_witness :
  (start_ffmpeg no_ffmpeg_env "-re" (sample_streamer false)).1 = Raise OSError /\
  ffmpeg_proc (start_ffmpeg no_ffmpeg_env "-re" (sample_streamer false)).2
  = Some sample_proc.
Proof.
  rewrite (start_ffmpeg_popen_fails no_ffmpeg_env (sample_streamer false) "-re" eq_refl).
  split; reflexivity.
Defined.

(** ** The command lines *)

Lemma split_on_cons (sep c : ascii) (s : string) :
  split_on sep (String c s)
  = if Ascii.eqb c sep then "" :: split_on sep s
    else match split_on sep s with
         | w :: ws => String c w :: ws
         | [] => [String c ""]
         end.
Proof. reflexivity. Qed.

Lemma split_on_not_nil (sep : ascii) (s : string) : split_on sep s <> [].
Proof.
  destruct s as [|c s]; [discriminate|]. rewrite split_on_cons.
  destruct (Ascii.eqb c sep); [discriminate|].
  destruct (split_on sep s); discriminate.
Qed.

Lemma split_on_app_sep (sep : ascii) (a b : string) :
  split_on sep (a +:+ String sep b) = split_on sep a ++ split_on sep b.
Proof.
  induction a as [|c a IH].
  - change ("" +:+ String sep b) with (String sep b).
    rewrite split_on_cons, Ascii.eqb_refl. reflexivity.
  - change (String c a +:+ String sep b) with (String c (a +:+ String sep b)).
    rewrite !split_on_cons, IH.
    destruct (Ascii.eqb c sep); [reflexivity|].
    destruct (split_on sep a) as [|w ws] eqn:Ha; [|reflexivity].
    now apply split_on_not_nil in Ha.
Qed.

Lemma split_on_no_space (x : string) :
  no_space x = true -> split_on " " x = [x].
Proof.
  unfold no_space. induction x as [|c x IH]; [reflexivity|].
  cbn [list_ascii_of_string forallb]. intros [Hc Hx]%andb_true_iff.
  rewrite split_on_cons, (IH Hx).
  destruct (Ascii.eqb c " "); [discriminate|reflexivity].
Qed.

(** X8: the argument list of a trial encode: the words of the template, with
    the ffmpeg path, the path of the test video and the encoder name each
    split at its own spaces.  Without a space in them, each is one argument
    and the encoder is the eighth; a space in the installation path breaks
    the path into several arguments. *)
Theorem trial_args_tokens :
  forall ffmpeg tv encoder : string,
    trial_args ffmpeg tv encoder
    = split_on " " ffmpeg ++ ["-re"; "-i"] ++ split_on " " tv
      ++ ["-pix_fmt"; "yuv420p"; "-vcodec"] ++ split_on " " encoder
      ++ ["-an"; "-f"; "rtp"; "rtp://localhost:8014?pkt_size=1300"] /\
    (no_space ffmpeg = true -> no_space tv = true -> no_space encoder = true ->
     trial_args ffmpeg tv encoder
     = [ffmpeg; "-re"; "-i"; tv; "-pix_fmt"; "yuv420p"; "-vcodec"; encoder;
        "-an"; "-f"; "rtp"; "rtp://localhost:8014?pkt_size=1300"]) /\
    (forall dir file : string,
        no_space ffmpeg = true -> no_space dir = true -> no_space file = true ->
        trial_args ffmpeg (dir +:+ " " +:+ file) encoder !! 3%nat = Some dir /\
        trial_args ffmpeg (dir +:+ " " +:+ file) encoder !! 4%nat = Some file).
Proof.
  intros ffmpeg tv encoder.
  assert (Hgen : forall tv',
    trial_args ffmpeg tv' encoder
    = split_on " " ffmpeg ++ ["-re"; "-i"] ++ split_on " " tv'
      ++ ["-pix_fmt"; "yuv420p"; "-vcodec"] ++ split_on " " encoder
      ++ ["-an"; "-f"; "rtp"; "rtp://localhost:8014?pkt_size=1300"]).
  { intros tv'. unfold trial_args.
    replace (trial_cmd ffmpeg tv' encoder) with
      (ffmpeg +:+ String " " ("-re" +:+ String " " ("-i" +:+ String " "
        (tv' +:+ String " " ("-pix_fmt" +:+ String " " ("yuv420p" +:+ String " "
          ("-vcodec" +:+ String " " (encoder +:+ String " " ("-an" +:+ String " "
            ("-f" +:+ String " " ("rtp" +:+ String " "
               "rtp://localhost:8014?pkt_size=1300")))))))))))
      by reflexivity.
    rewrite !split_on_app_sep. reflexivity. }
  repeat apply conj.
  - apply Hgen.
  - intros Hf Ht He. rewrite Hgen, !split_on_no_space by assumption. reflexivity.
  - intros dir file Hf Hd Hfile. rewrite Hgen.
    change (dir +:+ " " +:+ file) with (dir +:+ String " " file).
    rewrite split_on_app_sep, !split_on_no_space by assumption. split; reflexivity.
Qed.

(** X9: the argument list of the streaming process: the ffmpeg path, the
    arguments given to [start_ffmpeg] and the Janus address are each split
    at their spaces.  Empty [ffmpeg_args] leave an empty argument in the
    list. *)
Theorem stream_proc_tokens :
  forall (E : Env) (s : state) (ffmpeg_args : string) (b : behaviour),
    cmdline (stream_proc E s ffmpeg_args b)
    = split_on " " (FFMPEG s) ++ ["-loglevel"; "error"] ++ split_on " " ffmpeg_args
      ++ ["-bsf"; "dump_extra"; "-an"; "-f"; "rtp"]
      ++ split_on " " ("rtp://" +:+ JANUS_SERVER E +:+ ":8004?pkt_size=1300") /\
    (no_space (FFMPEG s) = true ->
     cmdline (stream_proc E s "" b) !! 3%nat = Some "").
Proof.
  intros E s ffmpeg_args b.
  assert (Hgen : forall args,
    cmdline (stream_proc E s args b)
    = split_on " " (FFMPEG s) ++ ["-loglevel"; "error"] ++ split_on " " args
      ++ ["-bsf"; "dump_extra"; "-an"; "-f"; "rtp"]
      ++ split_on " " ("rtp://" +:+ JANUS_SERVER E +:+ ":8004?pkt_size=1300")).
  { intros args. unfold stream_proc. cbn [cmdline].
    replace (stream_cmd E (FFMPEG s) args) with
      (FFMPEG s +:+ String " " ("-loglevel" +:+ String " " ("error" +:+ String " "
        (args +:+ String " " ("-bsf" +:+ String " " ("dump_extra" +:+ String " "
          ("-an" +:+ String " " ("-f" +:+ String " " ("rtp" +:+ String " "
             ("rtp://" +:+ JANUS_SERVER E +:+ ":8004?pkt_size=1300"))))))))))
      by reflexivity.
    rewrite !split_on_app_sep. reflexivity. }
  split; [apply Hgen|].
  intros Hf. rewrite Hgen, (split_on_no_space _ Hf). reflexivity.
Qed.

(** ** The resolution probe, whatever the webcam does *)

(** X10: whatever the webcam does, the resolution probe makes between 1 and
    20 captures and sleeps once after each capture but the last.  It stops
    at the first capture that yields an image it can decode and returns that
    one, having written one "Backing off" record before each sleep and
    nothing else; when it gives up, the exception it raises is the one of
    the twentieth attempt and the "Giving up" record, with that exception,
    is the last thing it writes. *)
Theorem get_webcam_resolution_bounded :
  forall (E : Env) (s : state),
    let r := get_webcam_resolution E s in
    exists n : nat,
      (1 <= n <= 20)%nat /\
      captures r.2 = (captures s + n)%nat /\
      length (List.filter is_sleep (new_events s r.2)) = (n - 1)%nat /\
      (forall k, (k < n - 1)%nat -> attempt E (captures s + k) = None) /\
      ((exists info,
           r.1 = Ret info /\ attempt E (captures s + (n - 1)) = Some info /\
           r.2 = advance s (backoff_events E 1 (captures s) (n - 1)) 0 n) \/
       (n = 20%nat /\ attempt E (captures s + 19) = None /\
        r.1 = Raise (attempt_error E (captures s + 19)) /\
        r.2 = advance s
                (backoff_events E 1 (captures s) 19
                 ++ [EvBackoffLog LvlError 20 (attempt_error E (captures s + 19))])
                0 20)).
Proof.
  intros E s. unfold get_webcam_resolution, on_exception. cbn [Nat.pred]. cbv zeta.
  destruct (on_exception_loop_outcome E 19 1 s)
    as (n & Hn & Hfail & [(info & Hok & Hr)|(-> & Hnone & Hr)]); rewrite Hr;
    cbn [fst snd].
  - exists n. split; [lia|]. split; [reflexivity|]. split.
    { rewrite new_events_advance. apply filter_sleep_backoff_events. }
    split; [exact Hfail|]. left. exists info. auto.
  - exists 20%nat. split; [lia|]. split; [reflexivity|]. split.
    { rewrite new_events_advance, List.filter_app, List.length_app,
        filter_sleep_backoff_events. reflexivity. }
    split; [exact Hfail|]. right. auto.
Qed.

(** On a webcam whose captures all raise, each with its own message, the
    error that reaches the caller is the last one. *)
Example get_webcam_resolution_last_error :
  let E := {| module_dir := ""; JANUS_SERVER := ""; pi_version := PyNone;
              stream_url := PyNone; linked_printer := ∅;
              spawn := fun _ _ => None;
              capture_jpeg := fun n =>
                CaptureRaises (ExternalError (string_of_Z (Z.of_nat n)));
              get_image_info := fun _ => None;
              utf8_decode := Some; py_int := fun _ => None;
              bytes_repr := fun b => b |} in
  (get_webcam_resolution E module_loaded).1 = Raise (ExternalError "19").
Proof. vm_compute. reflexivity. Qed.

(** ** Choosing the ffmpeg binary *)

Lemma set_ffmpeg_if_needed_outcome (E : Env) (s : state) :
  set_ffmpeg_if_needed E s =
  match spawn E (spawned s) ["cat"; "/etc/debian_version"] with
  | None => (Raise OSError, s)
  | Some b =>
      let s1 := advance s [EvPopen (cat_proc s b)] 1 0 in
      if alive_after (cat_proc s b) 5 then (Raise TimeoutExpired, s1)
      else if negb (returncode b =? 0) then (Ret tt, s1)
      else match debian_major E b with
           | Some v => if v >=? 11 then (Ret tt, with_FFMPEG (bundled_ffmpeg E) s1)
                       else (Ret tt, s1)
           | None => (Ret tt, s1)
           end
  end.
Proof.
  unfold set_ffmpeg_if_needed, bind, Popen.
  destruct (spawn E (spawned s) _) as [b|]; [|reflexivity].
  fold (cat_proc s b). cbv zeta.
  assert (Hs1 : {| ffmpeg_proc := ffmpeg_proc s; shutting_down := shutting_down s;
                   FFMPEG := FFMPEG s; spawned := S (spawned s);
                   captures := captures s;
                   events := events s ++ [EvPopen (cat_proc s b)] |}
                = advance s [EvPopen (cat_proc s b)] 1 0)
    by (apply state_eq; cbn; auto; lia).
  rewrite Hs1. unfold wait.
  destruct (alive_after (cat_proc s b) 5); [reflexivity|].
  unfold ret at 1. cbn [cat_proc beh].
  destruct (negb (returncode b =? 0)); [reflexivity|].
  unfold bind.
  unfold communicate, ret, debian_major, bundled_ffmpeg.
  cbn [fst cat_proc beh mbind option_bind].
  destruct (utf8_decode E (stdout_data b)) as [text|]; cbn [mbind option_bind];
    [|reflexivity].
  destruct (py_int E _) as [v|]; [|reflexivity].
  destruct (v >=? 11); reflexivity.
Qed.

(** X11: [set_ffmpeg_if_needed] replaces [FFMPEG] by the bundled binary exactly
    when [cat /etc/debian_version] exits with status 0 within 5 seconds and
    the text before the first dot of its output reads as an integer of at
    least 11; in every other case [FFMPEG] is as before.  An unreadable
    version is passed over in silence, but a [cat] that is still running
    after 5 seconds makes the function raise [TimeoutExpired]. *)
Theorem set_ffmpeg_if_needed_cases :
  forall (E : Env) (s : state),
    let r := set_ffmpeg_if_needed E s in
    (FFMPEG r.2 = FFMPEG s \/ FFMPEG r.2 = bundled_ffmpeg E) /\
    (forall b v,
        spawn E (spawned s) ["cat"; "/etc/debian_version"] = Some b ->
        alive_after (cat_proc s b) 5 = false -> returncode b = 0 ->
        debian_major E b = Some v -> 11 <= v ->
        r.1 = Ret tt /\ FFMPEG r.2 = bundled_ffmpeg E) /\
    (FFMPEG r.2 <> FFMPEG s ->
     exists b v,
       spawn E (spawned s) ["cat"; "/etc/debian_version"] = Some b /\
       alive_after (cat_proc s b) 5 = false /\ returncode b = 0 /\
       debian_major E b = Some v /\ 11 <= v) /\
    (forall b,
        spawn E (spawned s) ["cat"; "/etc/debian_version"] = Some b ->
        alive_after (cat_proc s b) 5 = false -> r.1 = Ret tt) /\
    (forall b,
        spawn E (spawned s) ["cat"; "/etc/debian_version"] = Some b ->
        alive_after (cat_proc s b) 5 = true ->
        r.1 = Raise TimeoutExpired /\ FFMPEG r.2 = FFMPEG s).
Proof.
  intros E s r. subst r. rewrite set_ffmpeg_if_needed_outcome.
  destruct (spawn E (spawned s) _) as [b|];
    [cbv zeta; destruct (alive_after (cat_proc s b) 5) eqn:Halive;
     [|destruct (Z.eqb_spec (returncode b) 0) as [Hrc|Hrc]; cbn [negb];
       [destruct (debian_major E b) as [v|] eqn:Hv;
        [destruct (Z.geb_spec v 11) as [Hge|Hlt]|]|]]|];
    cbn [fst snd FFMPEG with_FFMPEG advance];
    repeat apply conj; intros;
    repeat match goal with
           | H : Some _ = Some _ |- _ => injection H as H; subst
           end;
    try congruence; auto;
    try (exists b, v; repeat split; auto; lia);
    try (match goal with
         | H1 : ?t = Some ?a, H2 : ?t = Some ?c |- _ =>
             rewrite H1 in H2; injection H2 as H2; lia
         end).
Qed.

(** ** The pipeline, stage by stage *)

Lemma ffmpeg_from_mjpeg_stages (E : Env) (s : state) :
  ffmpeg_from_mjpeg E s =
  match set_ffmpeg_if_needed E s with
  | (Ret _, s1) =>
      match h264_encoder E s1 with
      | (Ret encoder, s2) =>
          match get_webcam_resolution E s2 with
          | (Ret (_, img_w, img_h), s3) =>
              if truthy (stream_url E)
              then start_ffmpeg E (stream_args E img_w img_h encoder) s3
              else (Raise (Exception no_stream_url_msg), s3)
          | (Raise e, s3) => (Raise e, s3)
          | (Hang, s3) => (Hang, s3)
          end
      | (Raise e, s2) => (Raise e, s2)
      | (Hang, s2) => (Hang, s2)
      end
  | (Raise e, s1) => (Raise e, s1)
  | (Hang, s1) => (Hang, s1)
  end.
Proof.
  unfold ffmpeg_from_mjpeg, bind.
  destruct (set_ffmpeg_if_needed E s) as [[u|e|] s1]; try reflexivity.
  destruct (h264_encoder E s1) as [[encoder|e|] s2]; try reflexivity.
  destruct (get_webcam_resolution E s2) as [[[[fmt w] h]|e|] s3]; try reflexivity.
  unfold stream_args. destruct (truthy (stream_url E)); cbn [negb]; [|reflexivity].
  destruct (stream_policy w h (linked_printer E)) as [fps bitrate]. reflexivity.
Qed.

(** X12: the stages of [ffmpeg_from_mjpeg] run one after the other and each one
    needs the one before: frames are captured only after an encoder was
    found, and the streamer's process is replaced only after the frame size
    is known and with a stream URL configured.  When the function returns,
    the streamer holds a process that survived the bounded wait and whose
    command line was built from that frame size and encoder. *)
Theorem ffmpeg_from_mjpeg_in_order :
  forall (E : Env) (s : state),
    let r := ffmpeg_from_mjpeg E s in
    (captures r.2 <> captures s ->
     exists s1 s2 encoder,
       set_ffmpeg_if_needed E s = (Ret tt, s1) /\
       h264_encoder E s1 = (Ret encoder, s2)) /\
    (ffmpeg_proc r.2 <> ffmpeg_proc s \/ r.1 = Ret tt ->
     exists s1 s2 s3 encoder fmt img_w img_h,
       set_ffmpeg_if_needed E s = (Ret tt, s1) /\
       h264_encoder E s1 = (Ret encoder, s2) /\
       get_webcam_resolution E s2 = (Ret (fmt, img_w, img_h), s3) /\
       truthy (stream_url E) = true /\
       (r.1 = Ret tt ->
        exists b,
          let p := stream_proc E s3 (stream_args E img_w img_h encoder) b in
          ffmpeg_proc r.2 = Some p /\ alive_after p 10 = true)).
Proof.
  intros E s r. subst r. rewrite ffmpeg_from_mjpeg_stages.
  pose proof (set_ffmpeg_if_needed_keeps_proc E s) as Hp1.
  pose proof (set_ffmpeg_if_needed_keeps_captures E s) as Hc1.
  destruct (set_ffmpeg_if_needed E s) as [[[]|e|] s1] eqn:H1; cbn [snd] in Hp1, Hc1;
    [|split; [intros H; now contradiction H
             |intros [H|H]; [now contradiction H|discriminate H]]..].
  pose proof (h264_encoder_keeps_proc E s1) as Hp2.
  pose proof (h264_encoder_keeps_captures E s1) as Hc2.
  destruct (h264_encoder E s1) as [[encoder|e|] s2] eqn:H2; cbn [snd] in Hp2, Hc2;
    [|split; [intros H; exfalso; apply H; cbn; congruence
             |intros [H|H]; [exfalso; apply H; cbn; congruence|discriminate H]]..].
  split; [intros _; eauto|].
  pose proof (get_webcam_resolution_keeps_proc E s2) as Hp3.
  destruct (get_webcam_resolution E s2) as [[[[fmt w] h]|e|] s3] eqn:H3;
    cbn [snd] in Hp3;
    [|intros [H|H]; [exfalso; apply H; cbn; congruence|discriminate H]..].
  destruct (truthy (stream_url E)) eqn:Hurl;
    [|intros [H|H]; [exfalso; apply H; cbn; congruence|discriminate H]].
  intros _. exists s1, s2, s3, encoder, fmt, w, h.
  repeat (split; [first [reflexivity | assumption]|]).
  rewrite start_ffmpeg_outcome. cbv zeta.
  destruct (spawn E (spawned s3) _) as [b|]; [|intros H; discriminate H].
  destruct (alive_after _ 10) eqn:Halive; [|intros H; discriminate H].
  intros _. exists b. cbv zeta. rewrite Halive. auto.
Qed.

(** X13: without a configured stream URL the pipeline never starts streaming:
    [ffmpeg_from_mjpeg] does not return normally and the streamer's process
    is as before.  The URL is looked at last: when the binary is chosen, an
    encoder found and the frame size discovered, the exception is the one
    that names the missing URL, raised in the state the probes left. *)
Theorem ffmpeg_from_mjpeg_without_stream_url :
  forall (E : Env) (s : state),
    truthy (stream_url E) = false ->
    let r := ffmpeg_from_mjpeg E s in
    r.1 <> Ret tt /\
    ffmpeg_proc r.2 = ffmpeg_proc s /\
    (forall s1 s2 s3 encoder info,
        set_ffmpeg_if_needed E s = (Ret tt, s1) ->
        h264_encoder E s1 = (Ret encoder, s2) ->
        get_webcam_resolution E s2 = (Ret info, s3) ->
        r = (Raise (Exception no_stream_url_msg), s3)).
Proof.
  intros E s Hurl r. subst r. rewrite ffmpeg_from_mjpeg_stages, Hurl.
  pose proof (set_ffmpeg_if_needed_keeps_proc E s) as Hp1.
  destruct (set_ffmpeg_if_needed E s) as [[[]|e|] s1] eqn:H1; cbn [snd] in Hp1;
    [|repeat apply conj; cbn [fst snd]; intros; congruence..].
  pose proof (h264_encoder_keeps_proc E s1) as Hp2.
  destruct (h264_encoder E s1) as [[encoder|e|] s2] eqn:H2; cbn [snd] in Hp2;
    [|repeat apply conj; cbn [fst snd]; intros; congruence..].
  pose proof (get_webcam_resolution_keeps_proc E s2) as Hp3.
  destruct (get_webcam_resolution E s2) as [[[[fmt w] h]|e|] s3] eqn:H3; cbn [snd] in Hp3;
    repeat apply conj; cbn [fst snd]; intros; congruence.
Qed.

Lemma ffmpeg_from_mjpeg_without_stream_url_witness :
  (ffmpeg_from_mjpeg
     {| module_dir := "/opt/obico/moonraker_obico"; JANUS_SERVER := "127.0.0.1";
        pi_version := PyInt 4; stream_url := PyStr ""; linked_printer := ∅;
        spawn := fun _ _ => Some (sample_behaviour (Some 1) 0);
        capture_jpeg := fun _ => CaptureReturns (Some "JPEG");
        get_image_info := fun _ => Some ("JPEG", 640, 480);
        utf8_decode := Some; py_int := fun _ => Some 10;
        bytes_repr := fun b => b |} module_loaded).1
  <> Ret tt.
Proof.
  refine (proj1 (ffmpeg_from_mjpeg_without_stream_url _ module_loaded _)).
  reflexivity.
Defined.

(** ** The entry point *)

Lemma video_pipeline_outcome (E : Env) (s : state) :
  video_pipeline E s =
  if truthy (pi_version E)
  then match ffmpeg_from_mjpeg E s with
       | (Raise e, s') =>
           (Ret tt, advance s' [EvCaptureException e; streaming_failed] 0 0)
       | r => r
       end
  else (Ret tt,
        advance s [EvLog LvlWarning "Not running on a Pi. Quiting video_pipeline."] 0 0).
Proof.
  unfold video_pipeline. destruct (truthy (pi_version E)); cbn [negb].
  - unfold try_except. destruct (ffmpeg_from_mjpeg E s) as [[[]|e|] s']; try reflexivity.
    cbn [any_Exception]. unfold bind, emit. cbn. f_equal.
    apply state_eq; cbn; rewrite <- ?app_assoc; auto; lia.
  - unfold log, emit. f_equal. apply state_eq; cbn; auto; lia.
Qed.

(** X14: [video_pipeline] never raises.  Off a Pi it only logs a warning: no
    process is started and no frame captured.  On a Pi, when
    [ffmpeg_from_mjpeg] raises, the exception goes to Sentry and one
    "Webcam Streaming Failed" warning is posted, in this order, after
    which [video_pipeline] returns; when [ffmpeg_from_mjpeg] returns,
    nothing is added. *)
Theorem video_pipeline_never_raises :
  forall (E : Env) (s : state),
    let r := video_pipeline E s in
    (forall e, r.1 <> Raise e) /\
    (truthy (pi_version E) = false ->
     r = (Ret tt,
          advance s [EvLog LvlWarning "Not running on a Pi. Quiting video_pipeline."] 0 0)) /\
    (truthy (pi_version E) = true ->
     forall e s', ffmpeg_from_mjpeg E s = (Raise e, s') ->
     r = (Ret tt, advance s' [EvCaptureException e; streaming_failed] 0 0)) /\
    (truthy (pi_version E) = true ->
     forall s', ffmpeg_from_mjpeg E s = (Ret tt, s') -> r = (Ret tt, s')).
Proof.
  intros E s r. subst r. rewrite video_pipeline_outcome.
  destruct (truthy (pi_version E)).
  - destruct (ffmpeg_from_mjpeg E s) as [[[]|e|] s'];
      repeat apply conj; cbn [fst snd]; intros; congruence.
  - repeat apply conj; cbn [fst snd]; intros; congruence.
Qed.

(** X15: on a Pi where [cat /etc/debian_version] is still running after 5
    seconds, the pipeline stops there: no encoder is tried, no frame is
    captured, and [video_pipeline] reports [TimeoutExpired] as a streaming
    failure. *)
Theorem video_pipeline_slow_cat :
  forall (E : Env) (s : state) (b : behaviour),
    truthy (pi_version E) = true ->
    spawn E (spawned s) ["cat"; "/etc/debian_version"] = Some b ->
    alive_after (cat_proc s b) 5 = true ->
    video_pipeline E s
    = (Ret tt,
       advance s [EvPopen (cat_proc s b); EvCaptureException TimeoutExpired;
                  streaming_failed] 1 0).
Proof.
  intros E s b Hpi Hspawn Halive.
  rewrite video_pipeline_outcome, Hpi, ffmpeg_from_mjpeg_stages,
    set_ffmpeg_if_needed_outcome, Hspawn.
  cbv zeta. rewrite Halive, advance_advance. reflexivity.
Qed.

Lemma video_pipeline_slow_cat_witness :
  popen_cmds (events (video_pipeline (sample_env [] ["cat"] 0) module_loaded).2)
  = [["cat"; "/etc/debian_version"]].
Proof.
  rewrite (video_pipeline_slow_cat (sample_env [] ["cat"] 0) module_loaded
             (sample_behaviour None 0) eq_refl eq_refl eq_refl).
  reflexivity.
Defined.

(** ** The stream policy and the linked printer *)

(** X16: the policy reads the linked printer through its [is_pro] entry only:
    other entries can be added or removed without effect; a printer without
    the entry is on the restricted tier; with the entry, the tier is the
    truth value of what is stored there. *)
Theorem stream_policy_reads_is_pro_only :
  forall (w h : Z) (lp : gmap string pyval),
    (lp !! "is_pro" = None ->
     stream_policy w h lp = (5, bitrate_for_dim w h / 4)) /\
    (forall (k : string) (v : pyval),
        k <> "is_pro" -> stream_policy w h (<[k := v]> lp) = stream_policy w h lp) /\
    (forall k : string,
        k <> "is_pro" -> stream_policy w h (delete k lp) = stream_policy w h lp) /\
    (forall v : pyval,
        stream_policy w h (<["is_pro" := v]> lp)
        = if truthy v then (25, bitrate_for_dim w h)
          else (5, bitrate_for_dim w h / 4)) /\
    stream_policy w h (delete "is_pro" lp) = (5, bitrate_for_dim w h / 4).
Proof.
  intros w h lp.
  assert (Hq : bitrate_for_dim w h `quot` 4 = bitrate_for_dim w h / 4).
  { apply Z.quot_div_nonneg; [|lia].
    destruct (bitrate_for_dim_cases w h) as [[_ ->]|[[_ ->]|[[_ ->]|[_ ->]]]]; lia. }
  assert (Hget : forall lp1 lp2 : gmap string pyval,
             lp1 !! "is_pro" = lp2 !! "is_pro" ->
             stream_policy w h lp1 = stream_policy w h lp2).
  { intros lp1 lp2 Heq. unfold stream_policy, dict_get. now rewrite Heq. }
  repeat apply conj.
  - intros Hnone. rewrite stream_policy_not_pro, Hq; [reflexivity|].
    unfold dict_get. now rewrite Hnone.
  - intros k v Hk. apply Hget. now rewrite lookup_insert_ne.
  - intros k Hk. apply Hget. now rewrite lookup_delete_ne.
  - intros v. destruct (truthy v) eqn:Hv.
    + apply stream_policy_pro. unfold dict_get. now rewrite lookup_insert_eq.
    + rewrite stream_policy_not_pro, Hq; [reflexivity|].
      unfold dict_get. now rewrite lookup_insert_eq.
  - rewrite stream_policy_not_pro, Hq; [reflexivity|].
    unfold dict_get. now rewrite lookup_delete_eq.
Qed.

(** X17: the bitrate depends on the frame size through the pixel area only: two
    sizes of the same area get the same bitrate, so width and height can be
    swapped; a size with a zero or negative side product gets the lowest
    bitrate; and the bitrate is one of the four of the table. *)
Theorem bitrate_for_dim_by_area :
  forall w h : Z,
    (forall w' h', w' * h' = w * h -> bitrate_for_dim w' h' = bitrate_for_dim w h) /\
    bitrate_for_dim h w = bitrate_for_dim w h /\
    (w * h <= 0 -> bitrate_for_dim w h = 400000) /\
    In (bitrate_for_dim w h) [400000; 1300000; 2000000; 3000000].
Proof.
  intros w h. repeat apply conj.
  - intros w' h' Heq. unfold bitrate_for_dim. cbv zeta. now rewrite Heq.
  - unfold bitrate_for_dim. cbv zeta. now rewrite (Z.mul_comm h w).
  - intros Hneg.
    destruct (bitrate_for_dim_cases w h) as [[? ->]|[[? ->]|[[? ->]|[? ->]]]];
      first [reflexivity | lia].
  - destruct (bitrate_for_dim_cases w h) as [[_ ->]|[[_ ->]|[[_ ->]|[_ ->]]]];
      cbn; auto.
Qed.

(** ** The monitor beyond the end of the stream *)

(** X18: as long as the stream delivers lines, the monitor neither returns nor
    reports: it has read them all and waits for the next. *)
Theorem monitor_ffmpeg_process_drains :
  forall (s : state) (p : process) (lines : list string),
    ffmpeg_proc s = Some p ->
    Forall (fun l => l <> "") lines ->
    monitor_ffmpeg_process (map quiet lines) s = (Hang, s).
Proof.
  intros s p lines Hp Hlines. unfold monitor_ffmpeg_process.
  rewrite <- (app_nil_r (map quiet lines)).
  rewrite (monitor_loop_lines s p [] Hp lines [] Hlines). reflexivity.
Qed.

Lemma monitor_ffmpeg_process_drains_witness :
  monitor_ffmpeg_process (map quiet sample_lines) (sample_streamer false)
  = (Hang, sample_streamer false).
Proof.
  apply (monitor_ffmpeg_process_drains (sample_streamer false) sample_proc sample_lines).
  - reflexivity.
  - repeat constructor; discriminate.
Defined.

(** X19: once [restore] has completed, a monitor that comes back to [readline]
    finds no process on the streamer: it ends with [AttributeError], and
    reports nothing, whatever the stream still holds. *)
Theorem monitor_after_restore :
  forall (s : state) (r : read) (reads : list read) (rb : list string),
    let s' := (restore s).2 in
    monitor_loop (r :: reads) rb s' = (Raise AttributeError, s').
Proof.
  intros s r reads rb s'. subst s'. rewrite restore_result. reflexivity.
Qed.

(** X20: the shutdown flag outlives a teardown: when the streaming process is
    started again after [restore] and survives its start-up, the monitor of
    the new process takes the end of its stream for an expected shutdown and
    reports nothing. *)
Theorem restart_after_restore_is_not_monitored :
  forall (E : Env) (s : state) (ffmpeg_args : string) (b : behaviour)
         (lines : list string) (rest : list read),
    let s1 := (restore s).2 in
    let p := stream_proc E s1 ffmpeg_args b in
    spawn E (spawned s1) (split_on " " (stream_cmd E (FFMPEG s1) ffmpeg_args)) = Some b ->
    alive_after p 10 = true ->
    Forall (fun l => l <> "") lines ->
    let s2 := (start_ffmpeg E ffmpeg_args s1).2 in
    (start_ffmpeg E ffmpeg_args s1).1 = Ret tt /\
    ffmpeg_proc s2 = Some p /\
    monitor_ffmpeg_process (map quiet lines ++ quiet "" :: rest) s2 = (Ret tt, s2).
Proof.
  intros E s ffmpeg_args b lines rest s1 p Hspawn Halive Hlines s2.
  assert (Hs2 : start_ffmpeg E ffmpeg_args s1
                = (Ret tt,
                   holding (Some p)
                     (advance s1
                        [EvLog LvlDebug
                           ("Popen: " +:+ stream_cmd E (FFMPEG s1) ffmpeg_args);
                         EvPopen p; EvNice p 10;
                         EvThreadStart (WatchProcessCpu p 80 20);
                         EvThreadStart MonitorFfmpegProcess] 1 0))).
  { rewrite start_ffmpeg_outcome. cbv zeta. rewrite Hspawn. fold p.
    rewrite Halive. reflexivity. }
  assert (Hproc : ffmpeg_proc s2 = Some p) by (subst s2; rewrite Hs2; reflexivity).
  assert (Hflag : shutting_down s2 = true).
  { subst s2. rewrite Hs2. cbn [snd holding shutting_down advance].
    subst s1. rewrite restore_result. reflexivity. }
  split; [rewrite Hs2; reflexivity|]. split; [exact Hproc|].
  unfold monitor_ffmpeg_process.
  rewrite (monitor_loop_lines s2 p _ Hproc lines [] Hlines).
  cbn [monitor_loop]. unfold bind. unfold quiet.
  rewrite (monitor_step_eof_shutting_down s2 p [] _ Hproc Hflag). reflexivity.
Qed.

Lemma restart_after_restore_is_not_monitored_witness :
  let s2 := (start_ffmpeg (sample_env [] ["-loglevel"] 0) "-re"
               (restore (sample_streamer false)).2).2 in
  monitor_ffmpeg_process (map quiet sample_lines ++ quiet "" :: []) s2 = (Ret tt, s2).
Proof.
  refine (proj2 (proj2 (restart_after_restore_is_not_monitored
                          (sample_env [] ["-loglevel"] 0) (sample_streamer false) "-re"
                          (sample_behaviour None 0) sample_lines [] _ _ _))).
  - reflexivity.
  - reflexivity.
  - repeat constructor; discriminate.
Defined.

(** ** The encoder probe, whatever the trials do *)

(** X21: when the first trial cannot even be started, the probe raises the error
    of [Popen] at once: the second candidate is not tried and the "No
    ffmpeg found" exception is not the one raised. *)
Theorem h264_encoder_popen_fails :
  forall (E : Env) (s : state),
    trial_of E (FFMPEG s) (test_video E) (spawned s) "h264_omx" = TrialNotStarted ->
    h264_encoder E s
    = (Raise OSError,
       advance s [EvLog LvlDebug
                    ("Popen: " +:+ trial_cmd (FFMPEG s) (test_video E) "h264_omx")] 0 0).
Proof.
  intros E s Ht. unfold h264_encoder, encoder_candidates, trial_of in *.
  rewrite h264_encoder_loop_cons.
  destruct (spawn E (spawned s) _) as [b|]; [|reflexivity].
  destruct (exit_after b); discriminate.
Qed.

Lemma h264_encoder_popen_fails_witness :
  (h264_encoder no_ffmpeg_env module_loaded).1 = Raise OSError /\
  popen_cmds (events (h264_encoder no_ffmpeg_env module_loaded).2) = [].
Proof.
  rewrite (h264_encoder_popen_fails no_ffmpeg_env module_loaded eq_refl).
  split; reflexivity.
Defined.

(** X22: whatever the trials do, the probe starts at most two processes and
    logs one debug line, with the command, before each; it does nothing
    else.  What it adds to the log is one of: the line of h264_omx (the
    trial could not be started); that line and the trial process; these and
    the line of h264_v4l2m2m (whose trial could not be started); these and
    the second trial process. *)
Theorem h264_encoder_at_most_two_trials :
  forall (E : Env) (s : state),
    let tv := test_video E in
    let line1 := EvLog LvlDebug ("Popen: " +:+ trial_cmd (FFMPEG s) tv "h264_omx") in
    let line2 := EvLog LvlDebug ("Popen: " +:+ trial_cmd (FFMPEG s) tv "h264_v4l2m2m") in
    (spawn E (spawned s) (trial_args (FFMPEG s) tv "h264_omx") = None /\
     (h264_encoder E s).2 = advance s [line1] 0 0) \/
    (exists b1 : behaviour,
        let p1 := trial_proc (FFMPEG s) tv (spawned s) "h264_omx" b1 in
        spawn E (spawned s) (trial_args (FFMPEG s) tv "h264_omx") = Some b1 /\
        ((h264_encoder E s).2 = advance s [line1; EvPopen p1] 1 0 \/
         (spawn E (S (spawned s)) (trial_args (FFMPEG s) tv "h264_v4l2m2m") = None /\
          (h264_encoder E s).2 = advance s [line1; EvPopen p1; line2] 1 0) \/
         (exists b2 : behaviour,
             let p2 := trial_proc (FFMPEG s) tv (S (spawned s)) "h264_v4l2m2m" b2 in
             spawn E (S (spawned s)) (trial_args (FFMPEG s) tv "h264_v4l2m2m")
             = Some b2 /\
             (h264_encoder E s).2
             = advance s [line1; EvPopen p1; line2; EvPopen p2] 2 0))).
Proof.
  intros E s. cbv zeta. unfold h264_encoder, encoder_candidates.
  rewrite h264_encoder_loop_cons.
  destruct (spawn E (spawned s) _) as [b1|]; [|left; split; reflexivity].
  right. exists b1. split; [reflexivity|]. cbv zeta.
  destruct (exit_after b1); [|left; reflexivity].
  destruct (returncode b1 =? 0); [left; reflexivity|].
  right. rewrite h264_encoder_loop_cons.
  cbn [FFMPEG spawned advance]. rewrite Nat.add_1_r.
  destruct (spawn E (S (spawned s)) _) as [b2|].
  - right. exists b2. split; [reflexivity|]. cbv zeta.
    assert (Hs : advance
                   (advance s (trial_events s (test_video E) "h264_omx" b1) 1 0)
                   (trial_events
                      (advance s (trial_events s (test_video E) "h264_omx" b1) 1 0)
                      (test_video E) "h264_v4l2m2m" b2) 1 0
                 = advance s
                     [EvLog LvlDebug
                        ("Popen: " +:+ trial_cmd (FFMPEG s) (test_video E) "h264_omx");
                      EvPopen (trial_proc (FFMPEG s) (test_video E) (spawned s)
                                 "h264_omx" b1);
                      EvLog LvlDebug
                        ("Popen: "
                         +:+ trial_cmd (FFMPEG s) (test_video E) "h264_v4l2m2m");
                      EvPopen (trial_proc (FFMPEG s) (test_video E) (S (spawned s))
                                 "h264_v4l2m2m" b2)] 2 0).
    { rewrite advance_advance. unfold trial_events. cbn [FFMPEG spawned advance app].
      rewrite Nat.add_1_r. reflexivity. }
    destruct (exit_after b2); [destruct (returncode b2 =? 0)|]; exact Hs.
  - left. split; [reflexivity|]. cbn [snd]. rewrite advance_advance. reflexivity.
Qed.

(** ** The arguments of the streaming process *)

Lemma no_space_app (a b : string) :
  no_space (a +:+ b) = no_space a && no_space b.
Proof.
  unfold no_space. induction a as [|c a IH]; [reflexivity|].
  change (String c a +:+ b) with (String c (a +:+ b)).
  cbn [list_ascii_of_string forallb]. rewrite IH. apply andb_assoc.
Qed.

Lemma no_space_string_of_uint (d : Decimal.uint) :
  no_space (NilEmpty.string_of_uint d) = true.
Proof. induction d; cbn [NilEmpty.string_of_uint]; try reflexivity; exact IHd. Qed.

Lemma no_space_string_of_Z (z : Z) : no_space (string_of_Z z) = true.
Proof.
  unfold string_of_Z, NilZero.string_of_int, NilZero.string_of_uint.
  destruct (Z.to_int z) as [d|d]; destruct d;
    first [reflexivity | apply (no_space_string_of_uint (_ _))
          | apply (no_space_string_of_uint _)].
Qed.

(** X23: the arguments handed to [start_ffmpeg] split into fifteen words when
    the stream URL and the encoder name hold no space: the frame rate and
    the bitrate are those of the stream policy, and the size given to [-s]
    is the size discovered by the resolution probe. *)
Theorem stream_args_tokens :
  forall (E : Env) (img_w img_h : Z) (encoder : string),
    no_space (py_str (stream_url E)) = true ->
    no_space encoder = true ->
    let policy := stream_policy img_w img_h (linked_printer E) in
    split_on " " (stream_args E img_w img_h encoder)
    = ["-re"; "-i"; py_str (stream_url E);
       "-filter:v"; "fps=" +:+ string_of_Z policy.1;
       "-b:v"; string_of_Z policy.2;
       "-pix_fmt"; "yuv420p";
       "-s"; string_of_Z img_w +:+ "x" +:+ string_of_Z img_h;
       "-flags:v"; "+global_header"; "-vcodec"; encoder].
Proof.
  intros E img_w img_h encoder Hurl Henc policy. subst policy.
  unfold stream_args.
  destruct (stream_policy img_w img_h (linked_printer E)) as [fps bitrate].
  cbn [fst snd].
  replace ("-re -i " +:+ py_str (stream_url E) +:+ " -filter:v fps="
           +:+ string_of_Z fps +:+ " -b:v " +:+ string_of_Z bitrate
           +:+ " -pix_fmt yuv420p -s " +:+ string_of_Z img_w +:+ "x"
           +:+ string_of_Z img_h +:+ " -flags:v +global_header -vcodec " +:+ encoder)
    with ("-re" +:+ String " " ("-i" +:+ String " " (py_str (stream_url E) +:+ String " "
           ("-filter:v" +:+ String " " (("fps=" +:+ string_of_Z fps) +:+ String " "
             ("-b:v" +:+ String " " (string_of_Z bitrate +:+ String " "
               ("-pix_fmt" +:+ String " " ("yuv420p" +:+ String " " ("-s" +:+ String " "
                 ((string_of_Z img_w +:+ "x" +:+ string_of_Z img_h) +:+ String " "
                   ("-flags:v" +:+ String " " ("+global_header" +:+ String " "
                     ("-vcodec" +:+ String " " encoder)))))))))))))).
  - rewrite !split_on_app_sep.
    rewrite (split_on_no_space (py_str (stream_url E))) by assumption.
    rewrite (split_on_no_space encoder) by assumption.
    rewrite (split_on_no_space (string_of_Z bitrate)) by apply no_space_string_of_Z.
    rewrite (split_on_no_space ("fps=" +:+ string_of_Z fps))
      by (rewrite no_space_app, no_space_string_of_Z; reflexivity).
    rewrite (split_on_no_space (string_of_Z img_w +:+ "x" +:+ string_of_Z img_h))
      by (rewrite !no_space_app, !no_space_string_of_Z; reflexivity).
    reflexivity.
  - rewrite !append_assoc. reflexivity.
Qed.

Lemma stream_args_tokens_witness :
  split_on " " (stream_args (sample_env [] [] 0) 1640 1232 "h264_omx")
  = ["-re"; "-i"; "http://127.0.0.1/webcam/?action=stream";
     "-filter:v"; "fps=5"; "-b:v"; "750000"; "-pix_fmt"; "yuv420p";
     "-s"; "1640x1232"; "-flags:v"; "+global_header"; "-vcodec"; "h264_omx"].
Proof.
  rewrite (stream_args_tokens (sample_env [] [] 0) 1640 1232 "h264_omx" eq_refl eq_refl).
  vm_compute. reflexivity.
Defined.
